(** * netrelay: TCP tunnelling over HTTP CONNECT

    A shallow embedding of the tunnel engine of packages [connect] and
    [connecttunnel]: the server handshakes (HTTP/1.1 and HTTP/2), the
    unified dispatch, the client dialers, the connection adapters and the
    flushing copy loop of the HTTP/2 data plane.

    Go code that talks to the outside world (dial functions, the
    authorization callback, hijacking, socket reads and writes) is modelled
    by explicit oracles; every call the Go code makes on them is recorded,
    in program order, in a trace of events.  A function body is written in
    a small trace monad with early return, so that each definition can be
    read side by side with the Go function of the same name. *)

From Stdlib Require Import ZArith List String Ascii Bool Lia.
Import ListNotations.

Local Open Scope Z_scope.
Local Open Scope string_scope.

(** ** Errors *)

(** [ProxyError] of errors.go. *)
Record ProxyError := mkProxyError {
  StatusCode : Z;
  Status : string;
  Message : string
}.

(** Go [error] values.  [ErrNew] is [errors.New] or [fmt.Errorf] without
    a wrapping verb, [ErrWrap] is [fmt.Errorf] with one [%w] operand (the
    wrapped error and the complete formatted message), [ErrProxy] is a
    pointer to a [ProxyError]. *)
Inductive error :=
| ErrNew (msg : string)
| ErrWrap (wrapped : error) (msg : string)
| ErrProxy (pe : ProxyError).

Definition ErrInvalidMethod := ErrNew "connecttunnel: invalid method, expected CONNECT".
Definition ErrInvalidTarget := ErrNew "connecttunnel: invalid target address".
Definition ErrTunnelRejected := ErrNew "connecttunnel: tunnel rejected by callback".
Definition ErrUpstreamDial := ErrNew "connecttunnel: failed to dial upstream".
Definition ErrHijackFailed := ErrNew "connecttunnel: failed to hijack connection".
Definition ErrProxyConnect := ErrNew "connecttunnel: proxy connection failed".

(** Method [Error] of [ProxyError]. *)
Definition ProxyError_Error (e : ProxyError) : string :=
  if negb (Message e =? "") then
    "connecttunnel: proxy returned " ++ Status e ++ ": " ++ Message e
  else
    "connecttunnel: proxy returned " ++ Status e.

(** The [Error()] method of an [error]. *)
Definition Error (e : error) : string :=
  match e with
  | ErrNew msg => msg
  | ErrWrap _ msg => msg
  | ErrProxy pe => ProxyError_Error pe
  end.

(** Method [Is] of [ProxyError]: the target is a [ProxyError] too. *)
Definition ProxyError_Is (target : error) : bool :=
  match target with ErrProxy _ => true | _ => false end.

(** ** The trace monad

    [Prog E R A] is a computation inside a Go function whose result type is
    [R]: it emits events of type [E] and either goes on with a value of
    type [A] ([inl]) or has executed a [return] with result [R] ([inr]). *)

Definition Prog (E R A : Type) : Type := (list E * (A + R))%type.

Definition ret {E R A} (a : A) : Prog E R A := ([], inl a).

Definition bind {E R A B} (m : Prog E R A) (f : A -> Prog E R B) : Prog E R B :=
  match m with
  | (t, inl a) => ((t ++ fst (f a))%list, snd (f a))
  | (t, inr r) => (t, inr r)
  end.

Definition emit {E R} (e : E) : Prog E R unit := ([e], inl tt).

(** Go's [return r]. *)
Definition Return {E R A} (r : R) : Prog E R A := ([], inr r).

(** Running a function body: falling off the end and [return] agree. *)
Definition run {E R} (m : Prog E R R) : list E * R :=
  (fst m, match snd m with inl r => r | inr r => r end).

Declare Scope prog_scope.
Delimit Scope prog_scope with prog.
Notation "x <- m ;; k" := (bind m (fun x => k))
  (at level 61, m at next level, right associativity) : prog_scope.
Notation "m ;; k" := (bind m (fun _ => k))
  (at level 61, right associativity) : prog_scope.
Local Open Scope prog_scope.

(** Calling another function: its [return] ends the callee only. *)
Definition call {E R R'} (m : Prog E R R) : Prog E R' R :=
  (fst (run m), inl (snd (run m))).

(** [if cond { body }] whose body may return. *)
Definition when {E R} (cond : bool) (body : Prog E R unit) : Prog E R unit :=
  if cond then body else ret tt.

(** ** Shared data *)

Definition MethodConnect := "CONNECT".
Definition StatusOK := 200.
Definition StatusBadRequest := 400.
Definition StatusForbidden := 403.
Definition StatusMethodNotAllowed := 405.
Definition StatusInternalServerError := 500.
Definition StatusBadGateway := 502.
Definition StatusHTTPVersionNotSupported := 505.

(** [strings.HasPrefix]. *)
Definition HasPrefix (s pre : string) : bool := String.prefix pre s.

(** An [http.Header]: keys with their value lists. *)
Definition Header := list (string * list string).

(** [h[k] = v] on a Go map. *)
Fixpoint header_set (k : string) (v : list string) (h : Header) : Header :=
  match h with
  | [] => [(k, v)]
  | (k', v') :: h' =>
      if k' =? k then (k, v) :: h' else (k', v') :: header_set k v h'
  end.

(** [maps.Copy(dst, src)], also the loop [for k, v := range src { dst[k] = v }]. *)
Definition maps_Copy (dst src : Header) : Header :=
  fold_left (fun d kv => header_set (fst kv) (snd kv) d) src dst.

(** Byte streams that are not sockets: the two ends of an [io.Pipe] and
    the body of an HTTP message, each named by a number. *)
Inductive stream :=
| PipeReader (p : nat)
| PipeWriter (p : nat)
| BodyStream (b : nat).

(** The fields of [http.Request] the engine reads or sets; a field the Go
    code leaves out of a composite literal has its zero value. *)
Record Request := mkRequest {
  Method : string;
  URL : string;
  Proto : string;
  ProtoMajor : Z;
  ProtoMinor : Z;
  ReqHeader : Header;
  ReqBody : option stream;
  ContentLength : Z;
  Host : string;
  RequestURI : string
}.

(** The fields of [http.Response] the dialers read. *)
Record Response := mkResponse {
  resp_StatusCode : Z;
  resp_Status : string;
  resp_Body : stream
}.

(** A socket, named by a number. *)
Definition sock := nat.

(** [DialFunc] and [TunnelFunc] of the configuration (the context argument
    carries no data the engine looks at). *)
Definition DialFunc := string -> string -> sock + error.
Definition TunnelFunc := Request -> option error.

(** A [Logger]: the configured one, or [log.Default()]. *)
Inductive Logger :=
| log_Default
| CustomLogger (id : nat).

(** [ServerConfig]; [None] is a nil field. *)
Record ServerConfig := mkServerConfig {
  OnTunnel : option TunnelFunc;
  Dial : option DialFunc;
  ErrorLog : option Logger
}.

(** [&ServerConfig{}]. *)
Definition emptyServerConfig : ServerConfig := mkServerConfig None None None.

(** ** Server side: handshakes and unified dispatch *)

Module Server.

(** [bufio.ReadWriter] handed out by a hijack: what [WriteString] and
    [Flush] answer. *)
Record bufio_ReadWriter := mkBufRW {
  WriteString : string -> option error;
  Flush : option error
}.

(** The capabilities of an [http.ResponseWriter] the handshakes use.
    [Hijacker = None]: the writer does not implement [http.Hijacker];
    otherwise the result of [Hijack()].  [EnableFullDuplex] and [rcFlush]
    are the answers of the response controller. *)
Record ResponseWriter := mkResponseWriter {
  Hijacker : option ((sock * bufio_ReadWriter) + error);
  EnableFullDuplex : option error;
  rcFlush : option error
}.

(** What a handler does to the outside world, in program order. *)
Inductive event :=
| EvOnTunnel (req : Request) (res : option error)
| EvPrintf (l : Logger) (msg : string)
| EvHttpError (msg : string) (code : Z)
| EvDial (network address : string) (res : sock + error)
| EvClose (s : sock)
| EvHijack (res : (sock * bufio_ReadWriter) + error)
| EvWriteString (s : string) (res : option error)
| EvBufFlush (res : option error)
| EvEnableFullDuplex (res : option error)
| EvWriteHeader (code : Z)
| EvFlush (res : option error)
| EvGoTunnel (client upstream : sock)
| EvTunnel (upstream : sock).

(** A handler body: events, result [unit]. *)
Definition Handler := Prog event unit unit.

Definition http_Error (msg : string) (code : Z) : Prog event unit unit :=
  emit (EvHttpError msg code).

Definition Printf (l : Logger) (msg : string) : Prog event unit unit :=
  emit (EvPrintf l msg).

Definition Close (s : sock) : Prog event unit unit := emit (EvClose s).

(** Calling a [DialFunc]. *)
Definition call_dial (dial : DialFunc) (network address : string)
  : Prog event unit (sock + error) :=
  let r := dial network address in
  emit (EvDial network address r) ;; ret r.

Definition CRLF : string := String "013"%char (String "010"%char EmptyString).

(** The literal the HTTP/1.1 handshake writes on the hijacked socket:
    the status line and an empty line. *)
Definition established : string :=
  "HTTP/1.1 200 Connection Established" ++ CRLF ++ CRLF.

Section Handlers.

(** The method [DialContext] of a zero [net.Dialer]. *)
Variable net_Dialer_DialContext : DialFunc.

(** [getDialFunc]. *)
Definition getDialFunc (c : ServerConfig) : DialFunc :=
  match Dial c with
  | Some d => d
  | None => net_Dialer_DialContext
  end.

(** [getLogger]. *)
Definition getLogger (c : ServerConfig) : Logger :=
  match ErrorLog c with
  | Some l => l
  | None => log_Default
  end.

(** [checkTunnel]. *)
Definition checkTunnel (c : ServerConfig) (req : Request)
  : Prog event unit (option error) :=
  match OnTunnel c with
  | Some f => let r := f req in emit (EvOnTunnel req r) ;; ret r
  | None => ret None
  end.

Record h1Handler := mkH1Handler { h1_cfg : ServerConfig }.
Record h2Handler := mkH2Handler { h2_cfg : ServerConfig }.

(** [NewH1Handler]; [None] is a nil configuration. *)
Definition NewH1Handler (cfg : option ServerConfig) : h1Handler :=
  let cfg := match cfg with None => emptyServerConfig | Some c => c end in
  mkH1Handler cfg.

(** [NewH2Handler]. *)
Definition NewH2Handler (cfg : option ServerConfig) : h2Handler :=
  let cfg := match cfg with None => emptyServerConfig | Some c => c end in
  mkH2Handler cfg.

(** [h1Handler.ServeHTTP]. *)
Definition h1_ServeHTTP (h : h1Handler) (w : ResponseWriter) (req : Request)
  : Handler :=
  when (negb (Method req =? MethodConnect))
    (http_Error "Method not allowed" StatusMethodNotAllowed ;; Return tt) ;;
  let target := RequestURI req in
  when ((target =? "") || (target =? "/"))
    (http_Error "Bad request: missing target" StatusBadRequest ;; Return tt) ;;
  err <- checkTunnel (h1_cfg h) req ;;
  match err with
  | Some err =>
      Printf (getLogger (h1_cfg h)) ("tunnel rejected: " ++ Error err) ;;
      http_Error "Forbidden" StatusForbidden ;;
      Return tt
  | None => ret tt
  end ;;
  let dial := getDialFunc (h1_cfg h) in
  r <- call_dial dial "tcp" target ;;
  upstream <- match r with
              | inr err =>
                  Printf (getLogger (h1_cfg h))
                    ("failed to dial " ++ target ++ ": " ++ Error err) ;;
                  http_Error "Bad Gateway" StatusBadGateway ;;
                  Return tt
              | inl upstream => ret upstream
              end ;;
  hijack <- match Hijacker w with
            | None =>
                Close upstream ;;
                http_Error "Internal Server Error" StatusInternalServerError ;;
                Return tt
            | Some res => emit (EvHijack res) ;; ret res
            end ;;
  cb <- match hijack with
        | inr err =>
            Close upstream ;;
            Printf (getLogger (h1_cfg h)) ("hijack failed: " ++ Error err) ;;
            http_Error "Internal Server Error" StatusInternalServerError ;;
            Return tt
        | inl cb => ret cb
        end ;;
  let client := fst cb in
  let bufrw := snd cb in
  let err := WriteString bufrw established in
  emit (EvWriteString established err) ;;
  match err with
  | Some err =>
      Close client ;;
      Close upstream ;;
      Printf (getLogger (h1_cfg h)) ("failed to write response: " ++ Error err) ;;
      Return tt
  | None => ret tt
  end ;;
  let err := Flush bufrw in
  emit (EvBufFlush err) ;;
  match err with
  | Some err =>
      Close client ;;
      Close upstream ;;
      Printf (getLogger (h1_cfg h)) ("failed to flush response: " ++ Error err) ;;
      Return tt
  | None => ret tt
  end ;;
  emit (EvGoTunnel client upstream).

(** [h2Handler.ServeHTTP]. *)
Definition h2_ServeHTTP (h : h2Handler) (w : ResponseWriter) (req : Request)
  : Handler :=
  when (negb (ProtoMajor req =? 2)%Z)
    (http_Error "HTTP/2 required" StatusHTTPVersionNotSupported ;; Return tt) ;;
  when (negb (Method req =? MethodConnect))
    (http_Error "Method not allowed" StatusMethodNotAllowed ;; Return tt) ;;
  let target := Host req in
  when (target =? "")
    (http_Error "Bad request: missing target" StatusBadRequest ;; Return tt) ;;
  err <- checkTunnel (h2_cfg h) req ;;
  match err with
  | Some err =>
      Printf (getLogger (h2_cfg h)) ("tunnel rejected: " ++ Error err) ;;
      http_Error "Forbidden" StatusForbidden ;;
      Return tt
  | None => ret tt
  end ;;
  let dial := getDialFunc (h2_cfg h) in
  r <- call_dial dial "tcp" target ;;
  upstream <- match r with
              | inr err =>
                  Printf (getLogger (h2_cfg h))
                    ("failed to dial " ++ target ++ ": " ++ Error err) ;;
                  http_Error "Bad Gateway" StatusBadGateway ;;
                  Return tt
              | inl upstream => ret upstream
              end ;;
  let err := EnableFullDuplex w in
  emit (EvEnableFullDuplex err) ;;
  match err with
  | Some err =>
      Close upstream ;;
      Printf (getLogger (h2_cfg h))
        ("failed to enable full duplex: " ++ Error err) ;;
      http_Error "Internal Server Error" StatusInternalServerError ;;
      Return tt
  | None => ret tt
  end ;;
  emit (EvWriteHeader StatusOK) ;;
  let err := rcFlush w in
  emit (EvFlush err) ;;
  match err with
  | Some err =>
      Close upstream ;;
      Printf (getLogger (h2_cfg h)) ("failed to flush response: " ++ Error err) ;;
      Return tt
  | None => ret tt
  end ;;
  emit (EvTunnel upstream).

Record unifiedHandler := mkUnifiedHandler {
  u_cfg : ServerConfig;
  u_h1 : h1Handler;
  u_h2 : h2Handler
}.

(** [NewHandler]. *)
Definition NewHandler (cfg : option ServerConfig) : unifiedHandler :=
  let cfg := match cfg with None => emptyServerConfig | Some c => c end in
  mkUnifiedHandler cfg (NewH1Handler (Some cfg)) (NewH2Handler (Some cfg)).

(** [unifiedHandler.ServeHTTP]. *)
Definition unified_ServeHTTP (h : unifiedHandler) (w : ResponseWriter)
  (req : Request) : Handler :=
  when (negb (Method req =? MethodConnect))
    (http_Error "Method not allowed" StatusMethodNotAllowed ;; Return tt) ;;
  if (ProtoMajor req =? 2)%Z then
    h2_ServeHTTP (u_h2 h) w req
  else
    h1_ServeHTTP (u_h1 h) w req.

End Handlers.

(** The events of a complete run of a handler. *)
Definition trace (m : Handler) : list event := fst (run m).

(** The two server handshakes. *)
Inductive handshake := HTTP1 | HTTP2.

(** A run of the handler a constructor builds from [cfg] ([None]: nil). *)
Definition serve (netDial : DialFunc) (k : handshake)
  (cfg : option ServerConfig) (w : ResponseWriter) (req : Request)
  : list event :=
  match k with
  | HTTP1 => trace (h1_ServeHTTP netDial (NewH1Handler cfg) w req)
  | HTTP2 => trace (h2_ServeHTTP netDial (NewH2Handler cfg) w req)
  end.

(** A run of the unified handler [NewHandler] builds from [cfg]. *)
Definition serve_unified (netDial : DialFunc) (cfg : option ServerConfig)
  (w : ResponseWriter) (req : Request) : list event :=
  trace (unified_ServeHTTP netDial (NewHandler cfg) w req).

(** The request [req] with another protocol major version. *)
Definition with_ProtoMajor (req : Request) (major : Z) : Request :=
  mkRequest (Method req) (URL req) (Proto req) major (ProtoMinor req)
    (ReqHeader req) (ReqBody req) (ContentLength req) (Host req)
    (RequestURI req).

(** Status codes sent through the HTTP layer ([http.Error], [WriteHeader]). *)
Definition statuses (t : list event) : list Z :=
  flat_map (fun e => match e with
                     | EvHttpError _ code => [code]
                     | EvWriteHeader code => [code]
                     | _ => []
                     end) t.

(** The calls of the upstream dial function. *)
Definition dials (t : list event) : list (string * string) :=
  flat_map (fun e => match e with
                     | EvDial n a _ => [(n, a)]
                     | _ => []
                     end) t.

(** The results of the authorization callback. *)
Definition authorizations (t : list event) : list (option error) :=
  flat_map (fun e => match e with
                     | EvOnTunnel _ r => [r]
                     | _ => []
                     end) t.

End Server.

(** ** Connection adapters and client dialers *)

Module Client.

(** The part of [tls.Config] the HTTP/1.1 dialer looks at, and the rest. *)
Record tls_Config := mkTLSConfig {
  ServerName : string;
  tls_settings : nat
}.

(** Connections of the standard library: a TCP socket, or [tls.Client]
    around a connection. *)
Inductive rawConn :=
| TCPConn (s : sock)
| tls_Client (c : rawConn) (cfg : tls_Config).

(** Objects whose [Close] is library code. *)
Inductive object :=
| ObjConn (c : rawConn)
| ObjStream (s : stream).

(** [remoteAddr] of conn.go. *)
Record remoteAddr := mkRemoteAddr { addr : string }.

(** [remoteAddr.Network]. *)
Definition remoteAddr_Network (a : remoteAddr) : string := "connecttunnel".

(** [remoteAddr.String]. *)
Definition remoteAddr_String (a : remoteAddr) : string := addr a.

(** [net.Addr] values: a [remoteAddr], or any other implementation, given
    by what its two methods answer. *)
Inductive net_Addr :=
| AddrRemote (a : remoteAddr)
| AddrOther (network str : string).

(** The interface methods [Network] and [String] of a [net.Addr]. *)
Definition Network (a : net_Addr) : string :=
  match a with
  | AddrRemote r => remoteAddr_Network r
  | AddrOther network _ => network
  end.

Definition Addr_String (a : net_Addr) : string :=
  match a with
  | AddrRemote r => remoteAddr_String r
  | AddrOther _ str => str
  end.

(** [h2Conn] of the HTTP/2 dialer. *)
Record h2Conn := mkH2Conn {
  reader : stream;
  writer : stream;
  pr : stream;
  pw : stream
}.

(** The [net.Conn] values of the package: library connections and the
    adapters [bufferedConn], [streamConnRW], [streamConn], [tunnelConn]. *)
Inductive net_Conn :=
| Raw (c : rawConn)
| bufferedConn (c : rawConn)
| streamConnRW (rwc : h2Conn) (a : net_Addr)
| streamConn (body : stream) (a : net_Addr)
| tunnelConn (c : net_Conn) (closer : option object).

(** [newStreamConnRW]. *)
Definition newStreamConnRW (rwc : h2Conn) (a : net_Addr) : net_Conn :=
  streamConnRW rwc a.

(** [newStreamConn]. *)
Definition newStreamConn (body : stream) (a : net_Addr) : net_Conn :=
  streamConn body a.

(** [newTunnelConn]. *)
Definition newTunnelConn (c : net_Conn) (closer : option object) : net_Conn :=
  tunnelConn c closer.

(** What a dialer or an adapter does to the outside world. *)
Inductive event :=
| EvDial (network address : string) (res : sock + error)
| EvReqWrite (c : rawConn) (req : Request) (res : option error)
| EvReadResponse (c : rawConn) (res : Response + error)
| EvPipe (p : nat)
| EvHeaderFunc (req : Request) (res : Header + error)
| EvRoundTrip (req : Request) (res : Response + error)
| EvClose (o : object) (res : option error).

(** The Go result pair [(net.Conn, error)]. *)
Definition DialResult : Type := option net_Conn * option error.

(** [h1Dialer]. *)
Record h1Dialer := mkH1Dialer {
  proxyAddr : string;
  proxyHost : string;
  useTLS : bool;
  tlsConfig : option tls_Config;
  header : Header;
  dial : DialFunc
}.

(** [h2Dialer]; [transport] stands for [d.transport.RoundTrip].  The
    header function is handed a pointer to the request that is sent
    afterwards, so it answers with the request as it leaves it beside the
    headers or the error it returns.  The header map of a request is
    never nil here: a header function that sets it to nil is left out. *)
Record h2Dialer := mkH2Dialer {
  proxyURL : string;
  transport : Request -> Response + error;
  headerFunc : option (Request -> Request * (Header + error))
}.

Section World.

(** [Close] of a library object. *)
Variable closeResult : object -> option error.
(** [req.Write(conn)]. *)
Variable req_Write : rawConn -> Request -> option error.
(** [http.ReadResponse(bufio.NewReader(conn), req)]. *)
Variable http_ReadResponse : rawConn -> Request -> Response + error.
(** The pipe [io.Pipe()] creates. *)
Variable io_Pipe : nat.

Definition Close {R} (o : object) : Prog event R (option error) :=
  let r := closeResult o in
  emit (EvClose o r) ;; ret r.

(** [h2Conn.Close]. *)
Definition h2Conn_Close (c : h2Conn) : Prog event (option error) (option error) :=
  err1 <- Close (ObjStream (reader c)) ;;
  err2 <- Close (ObjStream (writer c)) ;;
  match err1 with
  | Some _ => Return err1
  | None => ret tt
  end ;;
  Return err2.

(** [Close] of a [net.Conn]: [bufferedConn] promotes the method of the
    connection it embeds, the stream adapters close what they wrap,
    [tunnelConn.Close] closes the connection and then the extra closer. *)
Fixpoint Conn_Close (c : net_Conn) : Prog event (option error) (option error) :=
  match c with
  | Raw c => Close (ObjConn c)
  | bufferedConn c => Close (ObjConn c)
  | streamConnRW rwc _ => call (h2Conn_Close rwc)
  | streamConn body _ => Close (ObjStream body)
  | tunnelConn c closer =>
      err1 <- call (Conn_Close c) ;;
      match closer with
      | Some cl =>
          err2 <- Close cl ;;
          match err1 with
          | None => Return err2
          | Some _ => ret tt
          end
      | None => ret tt
      end ;;
      Return err1
  end.

(** [RemoteAddr] of the adapters; [None] stands for the address the
    library reports for a socket. *)
Fixpoint RemoteAddr (c : net_Conn) : option net_Addr :=
  match c with
  | Raw _ => None
  | bufferedConn _ => None
  | streamConnRW _ a => Some a
  | streamConn _ a => Some a
  | tunnelConn c _ => RemoteAddr c
  end.

(** [LocalAddr] of the stream adapters: a [net.TCPAddr] with the zero
    IPv4 address and port 0. *)
Definition stream_LocalAddr : net_Addr := AddrOther "tcp" "0.0.0.0:0".

(** [SetDeadline], [SetReadDeadline], [SetWriteDeadline] of the stream
    adapters. *)
Definition stream_SetDeadline (t : Z) : option error := None.

Definition call_dial {R} (dial : DialFunc) (network address : string)
  : Prog event R (sock + error) :=
  let r := dial network address in
  emit (EvDial network address r) ;; ret r.

(** [fmt.Errorf("%w: " + rest, ErrProxyConnect, ...)]. *)
Definition wrapProxyConnect (rest : string) : error :=
  ErrWrap ErrProxyConnect (Error ErrProxyConnect ++ ": " ++ rest).

Definition unsupportedNetwork (network : string) : error :=
  ErrNew ("connecttunnel: unsupported network: " ++ network).

(** The TLS configuration the HTTP/1.1 dialer hands to [tls.Client]. *)
Definition h1_tlsConfig (d : h1Dialer) : tls_Config :=
  match tlsConfig d with
  | None => mkTLSConfig (proxyHost d) 0
  | Some c =>
      if ServerName c =? "" then mkTLSConfig (proxyHost d) (tls_settings c)
      else c
  end.

(** [h1Dialer.DialContext]. *)
Definition h1_DialContext (d : h1Dialer) (network address : string)
  : Prog event DialResult DialResult :=
  when (negb (HasPrefix network "tcp"))
    (Return (None, Some (unsupportedNetwork network))) ;;
  r <- call_dial (dial d) network (proxyAddr d) ;;
  conn <- match r with
          | inr err => Return (None, Some (wrapProxyConnect (Error err)))
          | inl s => ret (TCPConn s)
          end ;;
  let conn := if useTLS d then tls_Client conn (h1_tlsConfig d) else conn in
  let req := mkRequest MethodConnect address "HTTP/1.1" 1 1
               (maps_Copy [] (header d)) None 0 address "" in
  let err := req_Write conn req in
  emit (EvReqWrite conn req err) ;;
  match err with
  | Some err =>
      Close (ObjConn conn) ;;
      Return (None, Some (wrapProxyConnect ("failed to write request: " ++ Error err)))
  | None => ret tt
  end ;;
  let r := http_ReadResponse conn req in
  emit (EvReadResponse conn r) ;;
  resp <- match r with
          | inr err =>
              Close (ObjConn conn) ;;
              Return (None, Some (wrapProxyConnect ("failed to read response: " ++ Error err)))
          | inl resp => ret resp
          end ;;
  Close (ObjStream (resp_Body resp)) ;;
  when (negb (resp_StatusCode resp =? StatusOK)%Z)
    (Close (ObjConn conn) ;;
     Return (None, Some (ErrProxy
       (mkProxyError (resp_StatusCode resp) (resp_Status resp) "")))) ;;
  Return (Some (bufferedConn conn), None).

(** [h2Dialer.DialContext], shared by the TLS and the cleartext dialer. *)
Definition h2_DialContext (d : h2Dialer) (network address : string)
  : Prog event DialResult DialResult :=
  when (negb (HasPrefix network "tcp"))
    (Return (None, Some (unsupportedNetwork network))) ;;
  emit (EvPipe io_Pipe) ;;
  let pr := PipeReader io_Pipe in
  let pw := PipeWriter io_Pipe in
  let req := mkRequest MethodConnect (proxyURL d) "" 0 0
               [] (Some pr) (-1) address "" in
  req <- match headerFunc d with
         | Some f =>
             let r := snd (f req) in
             emit (EvHeaderFunc req r) ;;
             let req := fst (f req) in
             match r with
             | inr err =>
                 Close (ObjStream pr) ;;
                 Close (ObjStream pw) ;;
                 Return (None, Some (wrapProxyConnect
                   ("failed to get additional headers: " ++ Error err)))
             | inl addlHeaders =>
                 ret (mkRequest (Method req) (URL req) (Proto req)
                        (ProtoMajor req) (ProtoMinor req)
                        (maps_Copy (ReqHeader req) addlHeaders)
                        (ReqBody req) (ContentLength req) (Host req)
                        (RequestURI req))
             end
         | None => ret req
         end ;;
  let r := transport d req in
  emit (EvRoundTrip req r) ;;
  resp <- match r with
          | inr err =>
              Close (ObjStream pr) ;;
              Close (ObjStream pw) ;;
              Return (None, Some (wrapProxyConnect (Error err)))
          | inl resp => ret resp
          end ;;
  when (negb (resp_StatusCode resp =? StatusOK)%Z)
    (Close (ObjStream (resp_Body resp)) ;;
     Close (ObjStream pr) ;;
     Close (ObjStream pw) ;;
     Return (None, Some (ErrProxy
       (mkProxyError (resp_StatusCode resp) (resp_Status resp) "")))) ;;
  let conn := mkH2Conn (resp_Body resp) pw pr pw in
  Return (Some (newStreamConnRW conn (AddrRemote (mkRemoteAddr address))), None).

(** The interface [Dialer] with its implementations: [NewH1Dialer] builds
    an [h1Dialer], [NewH2Dialer] and [NewH2CDialer] an [h2Dialer]. *)
Inductive Dialer :=
| DialerH1 (d : h1Dialer)
| DialerH2 (d : h2Dialer).

(** A complete call of [DialContext]: its events and its result pair. *)
Definition DialContext (d : Dialer) (network address : string)
  : list event * DialResult :=
  match d with
  | DialerH1 d => run (h1_DialContext d network address)
  | DialerH2 d => run (h2_DialContext d network address)
  end.

End World.

(** The socket under a library connection. *)
Fixpoint socket_of (c : rawConn) : sock :=
  match c with
  | TCPConn s => s
  | tls_Client c _ => socket_of c
  end.

(** Resources a call holds: sockets and streams. *)
Inductive resource :=
| ResSock (s : sock)
| ResStream (s : stream).

(** The resources a run opened: the socket of a successful dial, the two
    ends of a pipe, the body of a response. *)
Definition opened (t : list event) : list resource :=
  flat_map (fun e => match e with
                     | EvDial _ _ (inl s) => [ResSock s]
                     | EvPipe p => [ResStream (PipeReader p); ResStream (PipeWriter p)]
                     | EvReadResponse _ (inl r) => [ResStream (resp_Body r)]
                     | EvRoundTrip _ (inl r) => [ResStream (resp_Body r)]
                     | _ => []
                     end) t.

(** The resources a run released by closing an object; closing a TLS
    connection closes its socket. *)
Definition released (t : list event) : list resource :=
  flat_map (fun e => match e with
                     | EvClose (ObjConn c) _ => [ResSock (socket_of c)]
                     | EvClose (ObjStream s) _ => [ResStream s]
                     | _ => []
                     end) t.

(** The objects a run closed. *)
Definition closed (t : list event) : list object :=
  flat_map (fun e => match e with
                     | EvClose o _ => [o]
                     | _ => []
                     end) t.

(** The responses of the proxy a run observed. *)
Definition responses (t : list event) : list Response :=
  flat_map (fun e => match e with
                     | EvReadResponse _ (inl r) => [r]
                     | EvRoundTrip _ (inl r) => [r]
                     | _ => []
                     end) t.

(** Contacts with the proxy: calls of the dial function and round trips. *)
Definition contacts (t : list event) : list event :=
  filter (fun e => match e with
                   | EvDial _ _ _ => true
                   | EvReqWrite _ _ _ => true
                   | EvReadResponse _ _ => true
                   | EvRoundTrip _ _ => true
                   | _ => false
                   end) t.

End Client.

(** ** The flushing copy loop of the HTTP/2 data plane *)

Module Copy.

Definition io_EOF := ErrNew "EOF".
Definition io_ErrShortWrite := ErrNew "short write".

(** [len(buf)] after [buf := make([]byte, 32*1024)]. *)
Definition bufLen : Z := 32 * 1024.

(** The answer [(n, err)] of a [Read] or a [Write]. *)
Definition ioResult : Type := Z * option error.

Inductive event :=
| EvRead (len : Z) (res : ioResult)
| EvWrite (len : Z) (res : ioResult)
| EvFlush.

(** How the copy task stands: it sent [err] on the completion channel and
    returned, it panicked on a slice out of range, or it is still blocked
    in a [Read] or [Write] that has not answered. *)
Inductive outcome :=
| Sent (err : error)
| Panicked
| Blocked.

(** The task of [h2Handler.tunnel] that copies from upstream to the
    response writer.  [flusher] tells whether the writer is an
    [http.Flusher]; [reads] and [writes] are the answers upstream and the
    writer give, call after call. *)
Fixpoint upstream_to_client (flusher : bool) (reads writes : list ioResult)
  : Prog event outcome outcome :=
  match reads with
  | [] => Return Blocked
  | (nr, er) :: reads' =>
      emit (EvRead bufLen (nr, er)) ;;
      writes' <-
        (if (nr >? 0)%Z then
           when (nr >? bufLen)%Z (Return Panicked) ;;
           match writes with
           | [] => Return Blocked
           | (nw, ew) :: writes' =>
               emit (EvWrite nr (nw, ew)) ;;
               when flusher (emit EvFlush) ;;
               let invalid := ((nw <? 0) || (nr <? nw))%Z in
               let ew := if invalid then
                           match ew with
                           | None => Some (ErrNew "invalid write result")
                           | Some _ => ew
                           end
                         else ew in
               let nw := if invalid then 0 else nw in
               match ew with
               | Some ew => Return (Sent ew)
               | None => ret tt
               end ;;
               when (negb (nr =? nw)%Z) (Return (Sent io_ErrShortWrite)) ;;
               ret writes'
           end
         else ret writes) ;;
      match er with
      | Some er => Return (Sent er)
      | None => ret tt
      end ;;
      upstream_to_client flusher reads' writes'
  end.

(** The events and the outcome of the task. *)
Definition task (flusher : bool) (reads writes : list ioResult)
  : list event * outcome :=
  run (upstream_to_client flusher reads writes).


End Copy.

(** ** The copy tasks of the two tunnel functions *)

Module Engine.
Import Copy.

(** [err == io.EOF], errors made by [errors.New] being told apart by their
    message. *)
Definition is_EOF (e : error) : bool :=
  match e with
  | ErrNew msg => msg =? "EOF"
  | _ => false
  end.

(** How a call of [io.Copy] stands: it returned [err] (the byte count is
    dropped by every caller), it panicked on a slice out of range, or it is
    blocked in a [Read] or [Write] that has not answered. *)
Inductive copied :=
| Returned (err : option error)
| CopyPanicked
| CopyBlocked.

(** The loop [io.Copy] of the Go standard library runs when it copies by
    itself: a buffer of [32 * 1024] bytes, a short write without error
    turned into [io.ErrShortWrite], [io.EOF] of the source turned into a
    nil error.  The smaller buffer [io.Copy] takes for a source that is an
    [io.LimitedReader] does not arise: the sources here are a [net.Conn]
    or an [io.ReadCloser], which an [io.LimitedReader] is not.  [reads] and
    [writes] are the answers of source and destination, call after call. *)
Fixpoint copyBuffer (reads writes : list ioResult) : Prog event copied copied :=
  match reads with
  | [] => Return CopyBlocked
  | (nr, er) :: reads' =>
      emit (EvRead bufLen (nr, er)) ;;
      writes' <-
        (if (nr >? 0)%Z then
           when (nr >? bufLen)%Z (Return CopyPanicked) ;;
           match writes with
           | [] => Return CopyBlocked
           | (nw, ew) :: writes' =>
               emit (EvWrite nr (nw, ew)) ;;
               let invalid := ((nw <? 0) || (nr <? nw))%Z in
               let ew := if invalid then
                           match ew with
                           | None => Some (ErrNew "invalid write result")
                           | Some _ => ew
                           end
                         else ew in
               match ew with
               | Some ew => Return (Returned (Some ew))
               | None => ret tt
               end ;;
               when (negb (nr =? nw)%Z) (Return (Returned (Some io_ErrShortWrite))) ;;
               ret writes'
           end
         else ret writes) ;;
      match er with
      | Some er => Return (Returned (if is_EOF er then None else Some er))
      | None => ret tt
      end ;;
      copyBuffer reads' writes'
  end.

(** What the [WriteTo] of a source or the [ReadFrom] of a destination does
    when [io.Copy] hands the copy over to it: the reads and writes it
    makes, with buffers of its own choice, and the error it returns. *)
Definition delegate : Type := list event * option error.

(** The two ends of one call [io.Copy(dst, src)].  [src_WriteTo] is
    [None] when the source is no [io.WriterTo], [dst_ReadFrom] is [None]
    when the destination is no [io.ReaderFrom]; [dst_isTCPConn] tells
    whether the destination is a [net.TCPConn]. *)
Record endpoints := mkEndpoints {
  src_WriteTo : option delegate;
  dst_ReadFrom : option delegate;
  dst_isTCPConn : bool;
  src_reads : list ioResult;
  dst_writes : list ioResult
}.

(** [io.Copy(dst, src)]: the copy is the source's [WriteTo] if it has
    one, else the destination's [ReadFrom] if it has one, else the loop. *)
Definition io_Copy (p : endpoints) : list event * copied :=
  match src_WriteTo p with
  | Some wt => (fst wt, Returned (snd wt))
  | None =>
      match dst_ReadFrom p with
      | Some rf => (fst rf, Returned (snd rf))
      | None => run (copyBuffer (src_reads p) (dst_writes p))
      end
  end.



(** Whether the task calls [CloseWrite] on its destination. *)
Definition closes_write (p : endpoints) : bool :=
  match snd (io_Copy p) with
  | Returned _ => dst_isTCPConn p
  | _ => false
  end.













End Engine.

(** ** Concrete inputs *)

Module Examples.

(** A dial function that reaches nothing, and one that answers socket 7. *)
Definition noDial : DialFunc := fun _ _ => inr (ErrNew "dial: unreachable").
Definition okDial : DialFunc := fun _ _ => inl 7%nat.

(** [CONNECT example.com:443] with the given protocol major version. *)
Definition connectReq (major : Z) : Request :=
  mkRequest "CONNECT" "" "" major 0 [] None 0 "example.com:443" "example.com:443".

(** A configuration whose callback rejects every tunnel. *)
Definition rejectAll : ServerConfig :=
  mkServerConfig (Some (fun _ => Some ErrTunnelRejected)) (Some okDial) None.

(** A configuration with only a dial function. *)
Definition dialOnly : ServerConfig := mkServerConfig None (Some okDial) None.

(** A response writer without hijacking, and one whose hijack yields
    socket 3 and a buffer whose flush fails. *)
Definition plainWriter : Server.ResponseWriter :=
  Server.mkResponseWriter None None None.

Definition flushFails : Server.bufio_ReadWriter :=
  Server.mkBufRW (fun _ => None) (Some (ErrNew "broken pipe")).

Definition hijackable : Server.ResponseWriter :=
  Server.mkResponseWriter (Some (inl (3%nat, flushFails))) None None.

(** A proxy that answers [status] to every round trip, with body 1. *)
Definition proxyAnswers (code : Z) (status : string)
  : Request -> Response + error :=
  fun _ => inl (mkResponse code status (BodyStream 1)).

Definition h2Through (code : Z) (status : string) : Client.h2Dialer :=
  Client.mkH2Dialer "https://proxy.example:8443" (proxyAnswers code status) None.

Definition h1Through : Client.h1Dialer :=
  Client.mkH1Dialer "proxy.example:80" "proxy.example" false None [] okDial.

(** A header function that changes the request it is handed, setting its
    [Host] and a header of its own, and answers one more header. *)
Definition mutatingHeaders (req : Request) : Request * (Header + error) :=
  (mkRequest (Method req) (URL req) (Proto req) (ProtoMajor req)
     (ProtoMinor req) (header_set "X-Trace" ["1"] (ReqHeader req))
     (ReqBody req) (ContentLength req) "other.example:443" (RequestURI req),
   inl [("Proxy-Authorization", ["Bearer t"])]).

Definition h2WithHeaders (code : Z) (status : string) : Client.h2Dialer :=
  Client.mkH2Dialer "https://proxy.example:8443" (proxyAnswers code status)
    (Some mutatingHeaders).

(** Every close succeeds, every request is written. *)
Definition closeOk : Client.object -> option error := fun _ => None.
Definition writeOk : Client.rawConn -> Request -> option error := fun _ _ => None.
Definition readAnswers (code : Z) (status : string)
  : Client.rawConn -> Request -> Response + error :=
  fun _ _ => inl (mkResponse code status (BodyStream 1)).

End Examples.

(** ** What a run shows: further observations on traces *)

Module Observe.

(** Sockets a server run got hold of: the upstream socket of a successful
    dial and the client socket of a successful hijack. *)
Definition acquired (t : list Server.event) : list sock :=
  flat_map (fun e => match e with
                     | Server.EvDial _ _ (inl s) => [s]
                     | Server.EvHijack (inl (c, _)) => [c]
                     | _ => []
                     end) t.

(** Sockets a server run closed. *)
Definition closed_sockets (t : list Server.event) : list sock :=
  flat_map (fun e => match e with
                     | Server.EvClose s => [s]
                     | _ => []
                     end) t.

(** Sockets a server run handed to the copy engine, which closes them. *)
Definition handed_over (t : list Server.event) : list sock :=
  flat_map (fun e => match e with
                     | Server.EvGoTunnel c u => [c; u]
                     | Server.EvTunnel u => [u]
                     | _ => []
                     end) t.

(** The target a handshake dials: the request URI over HTTP/1.1, the
    authority over HTTP/2. *)
Definition target (k : Server.handshake) (req : Request) : string :=
  match k with
  | Server.HTTP1 => RequestURI req
  | Server.HTTP2 => Host req
  end.

(** Indexing a Go map of headers. *)
Fixpoint header_get (k : string) (h : Header) : option (list string) :=
  match h with
  | [] => None
  | (k', v) :: h' => if k' =? k then Some v else header_get k h'
  end.

(** The answers of the [Close] calls of a client run, in order. *)
Definition close_results (t : list Client.event) : list (option error) :=
  flat_map (fun e => match e with
                     | Client.EvClose _ r => [r]
                     | _ => []
                     end) t.

(** The first non-nil error of a list of answers. *)
Fixpoint first_error (rs : list (option error)) : option error :=
  match rs with
  | [] => None
  | Some e :: _ => Some e
  | None :: rs' => first_error rs'
  end.

(** Byte counts of a run of the copy task: what the reads delivered and
    what the writes took. *)
Definition bytes_read (t : list Copy.event) : Z :=
  fold_right (fun e acc => match e with
                           | Copy.EvRead _ (n, _) => Z.max n 0 + acc
                           | _ => acc
                           end) 0 t.

Definition bytes_written (t : list Copy.event) : Z :=
  fold_right (fun e acc => match e with
                           | Copy.EvWrite _ (n, _) => n + acc
                           | _ => acc
                           end) 0 t.

(** A write that took all it was offered and reported no error. *)
Definition complete_write (e : Copy.event) : Prop :=
  match e with
  | Copy.EvWrite len (n, err) => n = len /\ err = None
  | _ => True
  end.

(** The shape of a run of the copy task, turn by turn.  A turn is a read
    alone, or a read of [nr] bytes, [0 < nr <= bufLen], followed by one
    write that is offered exactly these [nr] bytes and, on a flusher, by a
    flush.  Another turn follows a read alone only when it delivered
    nothing and no error, and follows a write only when the write took
    everything without error and the read had no error. *)
Inductive turns (flusher : bool) : list Copy.event -> Prop :=
| turns_end : turns flusher []
| turns_read res t :
    turns flusher t ->
    (t <> [] -> fst res <= 0 /\ snd res = None) ->
    turns flusher (Copy.EvRead Copy.bufLen res :: t)
| turns_copy nr er w t :
    0 < nr <= Copy.bufLen ->
    turns flusher t ->
    (t <> [] -> w = (nr, None) /\ er = None) ->
    turns flusher
      (Copy.EvRead Copy.bufLen (nr, er) :: Copy.EvWrite nr w
         :: (if flusher then [Copy.EvFlush] else []) ++ t)%list.

End Observe.

(** ** The command-line tools: flag parsing and authorization callbacks *)

Module Tools.

(** [strings.Split(s, sep)] for a separator of one byte. *)
Fixpoint Split (s : string) (sep : ascii) : list string :=
  match s with
  | EmptyString => [EmptyString]
  | String c s' =>
      if Ascii.eqb c sep then EmptyString :: Split s' sep
      else match Split s' sep with
           | p :: ps => String c p :: ps
           | [] => [String c EmptyString]
           end
  end.

(** [strings.Contains(s, substr)] for a substring of one byte. *)
Fixpoint Contains (s : string) (c : ascii) : bool :=
  match s with
  | EmptyString => false
  | String a s' => Ascii.eqb a c || Contains s' c
  end.

(** The slice [s[n:]]. *)
Fixpoint slice_from (n : nat) (s : string) : string :=
  match n, s with
  | O, _ => s
  | S n', String _ s' => slice_from n' s'
  | S _, EmptyString => EmptyString
  end.

(** [strings.TrimPrefix]. *)
Definition TrimPrefix (s pre : string) : string :=
  if HasPrefix s pre then slice_from (String.length pre) s else s.

(** [forwardConfig] of the port forwarder. *)
Record forwardConfig := mkForwardConfig {
  name : string;
  listen : string;
  remote : string
}.

(** [parseForward]: the configuration (filled as far as parsing got) and
    the error. *)
Definition parseForward (s : string) : forwardConfig * option error :=
  let parts := Split s "="%char in
  match match parts with
        | [p0; p1] => inl (mkForwardConfig p0 p0 p1)
        | [p0; p1; p2] => inl (mkForwardConfig p0 p1 p2)
        | _ => inr (mkForwardConfig "" "" "",
                    Some (ErrNew
                      "invalid format, expected [name=]listen:port=remote:port"))
        end with
  | inr r => r
  | inl cfg =>
      if listen cfg =? "" then
        (cfg, Some (ErrNew "listen address cannot be empty"))
      else if remote cfg =? "" then
        (cfg, Some (ErrNew "remote address cannot be empty"))
      else if negb (Contains (listen cfg) ":"%char) then
        (cfg, Some (ErrNew
           "listen address must include port (e.g., localhost:8080 or :8080)"))
      else if negb (Contains (remote cfg) ":"%char) then
        (cfg, Some (ErrNew
           "remote address must include port (e.g., example.com:80)"))
      else (cfg, None)
  end.

(** [Header.Get] for a key in canonical form: the first value, or the
    empty string. *)
Definition Header_Get (h : Header) (key : string) : string :=
  match Observe.header_get key h with
  | Some (v :: _) => v
  | _ => ""
  end.

(** [extractBearerToken] of the Tailscale server. *)
Definition extractBearerToken (req : Request) : string * option error :=
  let auth := Header_Get (ReqHeader req) "Proxy-Authorization" in
  let auth := if auth =? "" then Header_Get (ReqHeader req) "Authorization"
              else auth in
  if auth =? "" then ("", Some (ErrNew "no authorization header"))
  else if negb (HasPrefix auth "Bearer ") then
    ("", Some (ErrNew "not a bearer token"))
  else (TrimPrefix auth "Bearer ", None).

(** What the callback uses of an OIDC provider: whether a validator can
    be built, and the verdict on a token. *)
Record oidcProvider := mkOidcProvider {
  NewValidator : option error;
  VerifyAndDecode : string -> option error
}.

(** The [OnTunnel] callback of the Tailscale server, for the flags
    [-oidc-issuer] ([oidc], nil without it), [-auth] and [-auth-token];
    its log lines are no part of its answer. *)
Definition tsOnTunnel (oidc : option oidcProvider) (enableAuth : bool)
  (authToken : string) : TunnelFunc :=
  fun req =>
    match oidc with
    | Some p =>
        match extractBearerToken req with
        | (_, Some _) => Some ErrTunnelRejected
        | (token, None) =>
            match NewValidator p with
            | Some _ => Some ErrTunnelRejected
            | None =>
                match VerifyAndDecode p token with
                | Some _ => Some ErrTunnelRejected
                | None => None
                end
            end
        end
    | None =>
        if enableAuth
           && negb (Header_Get (ReqHeader req) "Proxy-Authorization"
                    =? "Bearer " ++ authToken)
        then Some ErrTunnelRejected
        else None
    end.

End Tools.

(** ** The command-line tools: local proxy and port forwarder *)

Module Forwarders.

(** What a tool does to the outside world.  A connection is named by a
    number, as a socket is. *)
Inductive event :=
| EvHttpError (msg : string) (code : Z)
| EvLog (msg : string)
| EvDialContext (network address : string) (res : sock + error)
| EvHijack (res : (sock * Server.bufio_ReadWriter) + error)
| EvWrite (c : sock) (data : string) (res : option error)
| EvClose (c : sock)
| EvCopy (a b : sock) (res : option error).

(** [defer cleanup] followed by the rest of the function: the cleanup
    runs when the rest is over, however it ended. *)
Definition deferred {R A} (cleanup : event) (rest : Prog event R A)
  : Prog event R A :=
  ((fst rest ++ [cleanup])%list, snd rest).

Definition http_Error (msg : string) (code : Z) : Prog event unit unit :=
  emit (EvHttpError msg code).

(** [log.Printf] on the standard logger, with the formatted line. *)
Definition Printf (msg : string) : Prog event unit unit := emit (EvLog msg).

(** [proxyHandler] of the local proxy: the dialer through the remote
    proxy and the verbosity. *)
Record proxyHandler := mkProxyHandler {
  dialer : DialFunc;
  verbose : bool
}.

Section World.

(** [clientConn.Write(data)] on a hijacked connection. *)
Variable conn_Write : sock -> string -> option error.

(** [proxyHandler.handleConnect]; [remoteAddr] is [req.RemoteAddr]. *)
Definition handleConnect (h : proxyHandler) (w : Server.ResponseWriter)
  (req : Request) (remoteAddr : string) : Prog event unit unit :=
  let target := Host req in
  when (target =? "")
    (http_Error "Bad Request: no target specified" StatusBadRequest ;;
     Return tt) ;;
  when (verbose h)
    (Printf ("CONNECT request to " ++ target ++ " from " ++ remoteAddr)) ;;
  let r := dialer h "tcp" target in
  emit (EvDialContext "tcp" target r) ;;
  proxyConn <- match r with
               | inr err =>
                   Printf ("Failed to dial " ++ target ++ ": " ++ Error err) ;;
                   http_Error "Bad Gateway" StatusBadGateway ;;
                   Return tt
               | inl c => ret c
               end ;;
  deferred (EvClose proxyConn)
    (hijack <- match Server.Hijacker w with
               | None =>
                   http_Error "Internal Server Error: hijacking not supported"
                     StatusInternalServerError ;;
                   Return tt
               | Some res => emit (EvHijack res) ;; ret res
               end ;;
     clientConn <- match hijack with
                   | inr err =>
                       Printf ("Hijack failed: " ++ Error err) ;; Return tt
                   | inl cb => ret (fst cb)
                   end ;;
     deferred (EvClose clientConn)
       (let err := conn_Write clientConn Server.established in
        emit (EvWrite clientConn Server.established err) ;;
        match err with
        | Some err =>
            Printf ("Failed to send response: " ++ Error err) ;; Return tt
        | None => ret tt
        end ;;
        when (verbose h) (Printf ("Connected to " ++ target)) ;;
        emit (EvCopy clientConn proxyConn None) ;;
        when (verbose h) (Printf ("Connection to " ++ target ++ " closed")))).

(** [proxyHandler.ServeHTTP]. *)
Definition ServeHTTP (h : proxyHandler) (w : Server.ResponseWriter)
  (req : Request) (remoteAddr : string) : Prog event unit unit :=
  when (negb (Method req =? MethodConnect))
    (http_Error "Method not allowed. This proxy only supports CONNECT."
       StatusMethodNotAllowed ;;
     when (verbose h)
       (Printf ("Rejected " ++ Method req ++ " request to " ++ URL req)) ;;
     Return tt) ;;
  call (handleConnect h w req remoteAddr).

(** [handleConnection] of the port forwarder.  [peer] is the remote
    address of the local connection, [copyResult] the first result the two
    copy goroutines deliver. *)
Definition handleConnection (verbose : bool) (copyResult : option error)
  (localConn : sock) (peer remote name : string) (dialer : DialFunc)
  : Prog event unit unit :=
  deferred (EvClose localConn)
    (when verbose (Printf ("[" ++ name ++ "] New connection from " ++ peer)) ;;
     let r := dialer "tcp" remote in
     emit (EvDialContext "tcp" remote r) ;;
     remoteConn <- match r with
                   | inr err =>
                       Printf ("[" ++ name ++ "] Failed to dial " ++ remote
                               ++ ": " ++ Error err) ;;
                       Return tt
                   | inl c => ret c
                   end ;;
     deferred (EvClose remoteConn)
       (when verbose (Printf ("[" ++ name ++ "] Connected to " ++ remote)) ;;
        emit (EvCopy remoteConn localConn copyResult) ;;
        match copyResult with
        | Some err =>
            when verbose
              (Printf ("[" ++ name ++ "] Copy error: " ++ Error err))
        | None => ret tt
        end ;;
        when verbose (Printf ("[" ++ name ++ "] Connection closed")))).

End World.

(** The connections a run got hold of, in order: dialed or hijacked. *)
Definition acquired (t : list event) : list sock :=
  flat_map (fun e => match e with
                     | EvDialContext _ _ (inl c) => [c]
                     | EvHijack (inl (c, _)) => [c]
                     | _ => []
                     end) t.

(** The connections a run closed, in order. *)
Definition closed (t : list event) : list sock :=
  flat_map (fun e => match e with
                     | EvClose c => [c]
                     | _ => []
                     end) t.

(** Status codes sent through the HTTP layer. *)
Definition statuses (t : list event) : list Z :=
  flat_map (fun e => match e with
                     | EvHttpError _ code => [code]
                     | _ => []
                     end) t.

End Forwarders.

(** * Properties *)

(** ** Laws of the trace monad *)

Lemma bind_ret_l {E R A B} (a : A) (f : A -> Prog E R B) :
  bind (ret a) f = f a.
Proof. unfold bind, ret. cbn. now destruct (f a). Qed.

Lemma bind_Return {E R A B} (r : R) (f : A -> Prog E R B) :
  bind (Return r) f = Return r.
Proof. reflexivity. Qed.

Lemma bind_emit {E R B} (e : E) (f : unit -> Prog E R B) :
  bind (emit e) f = (e :: fst (f tt), snd (f tt)).
Proof. reflexivity. Qed.

Lemma bind_assoc {E R A B C} (m : Prog E R A) (f : A -> Prog E R B)
  (g : B -> Prog E R C) :
  bind (bind m f) g = bind m (fun a => bind (f a) g).
Proof.
  destruct m as [t [a | r]]; cbn; [| reflexivity].
  destruct (f a) as [t' [b | r]]; cbn; [| reflexivity].
  now rewrite app_assoc.
Qed.

(** ** Server handshakes and dispatch *)

Module ServerSpec.
Import Server.

Ltac simp := cbn -[String.eqb Z.eqb String.append established] in *.

(** Case analysis on what an oracle or a test answers, then evaluation. *)
Ltac branch :=
  match goal with
  | |- context [match ?x with _ => _ end] =>
      lazymatch x with
      | context [match _ with _ => _ end] => fail
      | _ => destruct x eqn:?; simp
      end
  | |- context [if ?x then _ else _] => destruct x eqn:?; simp
  end.

Ltac unfold_handlers :=
  unfold serve_unified, serve, trace, unified_ServeHTTP, h1_ServeHTTP,
    h2_ServeHTTP, checkTunnel, when, NewHandler, NewH1Handler, NewH2Handler.

Lemma connect_test (req : Request) :
  Method req = MethodConnect -> negb (Method req =? MethodConnect) = false.
Proof. intros ->. reflexivity. Qed.

Lemma not_connect_test (req : Request) :
  Method req <> MethodConnect -> negb (Method req =? MethodConnect) = true.
Proof.
  intros H. destruct (String.eqb_spec (Method req) MethodConnect); [contradiction | reflexivity].
Qed.

Section Facts.

Variable netDial : DialFunc.

(** A validated CONNECT request reaches the authorization callback. *)
Lemma h1_reaches_callback cfg w req f :
  Method req = MethodConnect ->
  RequestURI req <> "" -> RequestURI req <> "/" ->
  OnTunnel cfg = Some f ->
  In (f req) (authorizations (serve netDial HTTP1 (Some cfg) w req)).
Proof.
  intros Hm H1 H2 Hf. unfold_handlers.
  rewrite (connect_test _ Hm). simp.
  destruct (String.eqb_spec (RequestURI req) ""); [contradiction |].
  destruct (String.eqb_spec (RequestURI req) "/"); [contradiction |].
  rewrite Hf. simp. now left.
Qed.

Lemma h2_reaches_callback cfg w req f :
  Method req = MethodConnect ->
  ProtoMajor req = 2 -> Host req <> "" ->
  OnTunnel cfg = Some f ->
  In (f req) (authorizations (serve netDial HTTP2 (Some cfg) w req)).
Proof.
  intros Hm Hp Hh Hf. unfold_handlers.
  rewrite Hp, (connect_test _ Hm). simp.
  destruct (String.eqb_spec (Host req) ""); [contradiction |].
  rewrite Hf. simp. now left.
Qed.

(** C1. In either server handshake, a CONNECT request that passes the
    checks before authorization and on which the configured authorization
    callback returns an error is answered by this run: the callback is
    called, the rejection is logged, and status 403 is sent.  That is the
    whole run: 403 is the only status and the upstream dial function is
    not called. *)
Theorem rejected_by_callback_forbidden_no_dial k c f w req e :
  Method req = MethodConnect ->
  match k with
  | HTTP1 => RequestURI req <> "" /\ RequestURI req <> "/"
  | HTTP2 => ProtoMajor req = 2 /\ Host req <> ""
  end ->
  OnTunnel c = Some f ->
  f req = Some e ->
  serve netDial k (Some c) w req
  = [EvOnTunnel req (Some e);
     EvPrintf (getLogger c) ("tunnel rejected: " ++ Error e);
     EvHttpError "Forbidden" StatusForbidden]
  /\ statuses (serve netDial k (Some c) w req) = [StatusForbidden]
  /\ dials (serve netDial k (Some c) w req) = [].
Proof.
  intros Hm Hv Hf He.
  assert (Hrun : serve netDial k (Some c) w req
                 = [EvOnTunnel req (Some e);
                    EvPrintf (getLogger c) ("tunnel rejected: " ++ Error e);
                    EvHttpError "Forbidden" StatusForbidden]).
  { destruct k; destruct Hv as [H1 H2]; unfold_handlers.
    - rewrite (connect_test _ Hm). simp.
      destruct (String.eqb_spec (RequestURI req) ""); [contradiction |].
      destruct (String.eqb_spec (RequestURI req) "/"); [contradiction |].
      rewrite Hf. simp. rewrite He. reflexivity.
    - rewrite H1, (connect_test _ Hm). simp.
      destruct (String.eqb_spec (Host req) ""); [contradiction |].
      rewrite Hf. simp. rewrite He. reflexivity. }
  rewrite Hrun. repeat split.
Qed.

(** C3. A request whose method is not CONNECT gets 405 from the unified
    handler: this is the whole run, so neither the authorization callback
    nor the dial function is called, and the run is the same whatever the
    protocol major version of the request. *)
Theorem unified_non_connect_405 cfg w req :
  Method req <> MethodConnect ->
  serve_unified netDial cfg w req
    = [EvHttpError "Method not allowed" StatusMethodNotAllowed]
  /\ statuses (serve_unified netDial cfg w req) = [405]
  /\ authorizations (serve_unified netDial cfg w req) = []
  /\ dials (serve_unified netDial cfg w req) = []
  /\ forall major,
       serve_unified netDial cfg w (with_ProtoMajor req major)
       = serve_unified netDial cfg w req.
Proof.
  intros Hm.
  assert (Hrun : forall r, Method r <> MethodConnect ->
            serve_unified netDial cfg w r
            = [EvHttpError "Method not allowed" StatusMethodNotAllowed]).
  { intros r Hr. unfold_handlers. now rewrite (not_connect_test _ Hr). }
  rewrite (Hrun req Hm). repeat split.
  intros major. now rewrite Hrun.
Qed.

(** C4. In the HTTP/1.1 handshake a successful hijack is followed by one
    write of the bytes [HTTP/1.1 200 Connection Established], CR LF, CR LF.
    When the write succeeds the buffer is flushed next; when the write or
    the flush fails the run ends by closing the hijacked client socket and
    the upstream socket, and the tunnel is started only after both
    succeeded. *)
Theorem h1_established_then_flush cfg w req client bufrw :
  In (EvHijack (inl (client, bufrw))) (serve netDial HTTP1 cfg w req) ->
  let c := match cfg with None => emptyServerConfig | Some c => c end in
  let literal := "HTTP/1.1 200 Connection Established"
                 ++ String "013" (String "010" (String "013" (String "010" ""))) in
  exists upstream,
    getDialFunc netDial c "tcp" (RequestURI req) = inl upstream /\
    serve netDial HTTP1 cfg w req =
      (match OnTunnel c with Some _ => [EvOnTunnel req None] | None => [] end
       ++ [EvDial "tcp" (RequestURI req) (inl upstream);
           EvHijack (inl (client, bufrw));
           EvWriteString literal (WriteString bufrw literal)]
       ++ match WriteString bufrw literal with
          | Some err =>
              [EvClose client; EvClose upstream;
               EvPrintf (getLogger c) ("failed to write response: " ++ Error err)]
          | None =>
              EvBufFlush (Flush bufrw)
              :: match Flush bufrw with
                 | Some err =>
                     [EvClose client; EvClose upstream;
                      EvPrintf (getLogger c) ("failed to flush response: " ++ Error err)]
                 | None => [EvGoTunnel client upstream]
                 end
          end)%list.
Proof.
  intros H c literal.
  change literal with established. clear literal.
  revert H. subst c. unfold_handlers.
  set (c := match cfg with Some c => c | None => emptyServerConfig end).
  destruct (negb (Method req =? MethodConnect)); simp; [intuition discriminate |].
  destruct ((RequestURI req =? "") || (RequestURI req =? "/")); simp;
    [intuition discriminate |].
  destruct (OnTunnel c) as [f |]; simp; [destruct (f req); simp |];
    try (intuition discriminate);
    (destruct (getDialFunc netDial c "tcp" (RequestURI req)) as [up | err]; simp;
      [| intuition discriminate]);
    (destruct (Hijacker w) as [[[cl rw] | err] |]; simp;
      try (intuition discriminate));
    (destruct (WriteString rw established) eqn:Hw; simp;
      [| destruct (Flush rw) eqn:Hf; simp]);
    intros H; repeat (destruct H as [H | H]; try discriminate); try contradiction;
    injection H as H1 H2; subst cl rw; exists up; rewrite Hw; try rewrite Hf;
    (split; reflexivity).
Qed.

(** The handlers [NewHandler] gives to the unified handler are the ones the
    two constructors build from the same configuration. *)
Lemma NewHandler_parts cfg :
  u_h1 (NewHandler cfg) = NewH1Handler cfg /\ u_h2 (NewHandler cfg) = NewH2Handler cfg.
Proof. destruct cfg; split; reflexivity. Qed.

(** After the method test the unified handler is one of the two
    handshakes, chosen by comparing the major version with 2. *)
Lemma unified_delegates (h : unifiedHandler) w req :
  Method req = MethodConnect ->
  unified_ServeHTTP netDial h w req
  = if (ProtoMajor req =? 2)%Z then h2_ServeHTTP netDial (u_h2 h) w req
    else h1_ServeHTTP netDial (u_h1 h) w req.
Proof.
  intros Hm. unfold unified_ServeHTTP, when.
  now rewrite (connect_test _ Hm), bind_ret_l.
Qed.

(** C8, as the code has it. The unified handler hands a CONNECT request to
    the HTTP/2 handshake when the protocol major version is 2, and to the
    HTTP/1.1 handshake for every other major version. *)
Theorem unified_dispatch_on_major_2 (h : unifiedHandler) w req :
  Method req = MethodConnect ->
  (ProtoMajor req = 2 ->
     unified_ServeHTTP netDial h w req = h2_ServeHTTP netDial (u_h2 h) w req)
  /\ (ProtoMajor req <> 2 ->
     unified_ServeHTTP netDial h w req = h1_ServeHTTP netDial (u_h1 h) w req).
Proof.
  intros Hm. rewrite (unified_delegates h w req Hm).
  destruct (Z.eqb_spec (ProtoMajor req) 2); split; intros; congruence.
Qed.

(** A run of the unified handler is the 405 answer or a run of one of the
    two handshakes on the same configuration. *)
Lemma serve_unified_cases cfg w req :
  serve_unified netDial cfg w req
    = [EvHttpError "Method not allowed" StatusMethodNotAllowed]
  \/ exists k, serve_unified netDial cfg w req = serve netDial k cfg w req.
Proof.
  destruct (String.eqb_spec (Method req) MethodConnect) as [Hm | Hm].
  - right. destruct (NewHandler_parts cfg) as [P1 P2].
    unfold serve_unified. rewrite (unified_delegates _ w req Hm), P1, P2.
    destruct (ProtoMajor req =? 2)%Z; [exists HTTP2 | exists HTTP1]; reflexivity.
  - left. unfold_handlers. now rewrite (not_connect_test _ Hm).
Qed.





End Facts.

Import Examples.

Lemma rejected_by_callback_forbidden_no_dial_witness :
  (serve okDial HTTP1 (Some rejectAll) plainWriter (connectReq 1)
   = [EvOnTunnel (connectReq 1) (Some ErrTunnelRejected);
      EvPrintf (getLogger rejectAll) ("tunnel rejected: " ++ Error ErrTunnelRejected);
      EvHttpError "Forbidden" StatusForbidden]
   /\ statuses (serve okDial HTTP1 (Some rejectAll) plainWriter (connectReq 1))
      = [StatusForbidden]
   /\ dials (serve okDial HTTP1 (Some rejectAll) plainWriter (connectReq 1)) = [])
  /\ (serve okDial HTTP2 (Some rejectAll) plainWriter (connectReq 2)
      = [EvOnTunnel (connectReq 2) (Some ErrTunnelRejected);
         EvPrintf (getLogger rejectAll) ("tunnel rejected: " ++ Error ErrTunnelRejected);
         EvHttpError "Forbidden" StatusForbidden]
      /\ statuses (serve okDial HTTP2 (Some rejectAll) plainWriter (connectReq 2))
         = [StatusForbidden]
      /\ dials (serve okDial HTTP2 (Some rejectAll) plainWriter (connectReq 2)) = []).
Proof.
  split.
  - apply (rejected_by_callback_forbidden_no_dial okDial HTTP1 rejectAll
             (fun _ => Some ErrTunnelRejected) plainWriter (connectReq 1)
             ErrTunnelRejected);
      [reflexivity | split; discriminate | reflexivity | reflexivity].
  - apply (rejected_by_callback_forbidden_no_dial okDial HTTP2 rejectAll
             (fun _ => Some ErrTunnelRejected) plainWriter (connectReq 2)
             ErrTunnelRejected);
      [reflexivity | split; [reflexivity | discriminate] | reflexivity | reflexivity].
Defined.

Lemma unified_non_connect_405_witness :
  Method (with_ProtoMajor (mkRequest "GET" "" "" 1 1 [] None 0 "example.com" "/") 2)
    <> MethodConnect
  /\ statuses (serve_unified okDial (Some rejectAll) plainWriter
                 (with_ProtoMajor (mkRequest "GET" "" "" 1 1 [] None 0 "example.com" "/") 2))
       = [405].
Proof.
  split; [discriminate |].
  apply (unified_non_connect_405 okDial (Some rejectAll) plainWriter
           (with_ProtoMajor (mkRequest "GET" "" "" 1 1 [] None 0 "example.com" "/") 2)).
  discriminate.
Defined.

Lemma h1_established_then_flush_witness :
  In (EvHijack (inl (3%nat, flushFails)))
     (serve noDial HTTP1 (Some dialOnly) hijackable (connectReq 1))
  /\ exists upstream,
       serve noDial HTTP1 (Some dialOnly) hijackable (connectReq 1)
       = [EvDial "tcp" "example.com:443" (inl upstream);
          EvHijack (inl (3%nat, flushFails));
          EvWriteString established None;
          EvBufFlush (Some (ErrNew "broken pipe"));
          EvClose 3%nat; EvClose upstream;
          EvPrintf log_Default "failed to flush response: broken pipe"].
Proof.
  split; [vm_compute; auto |].
  destruct (h1_established_then_flush noDial (Some dialOnly) hijackable
              (connectReq 1) 3%nat flushFails) as [upstream [_ Ht]];
    [vm_compute; auto |].
  exists upstream. rewrite Ht. reflexivity.
Defined.

Lemma unified_dispatch_on_major_2_witness :
  Method (connectReq 2) = MethodConnect
  /\ unified_ServeHTTP noDial (NewHandler (Some dialOnly)) plainWriter (connectReq 2)
     = h2_ServeHTTP noDial (NewH2Handler (Some dialOnly)) plainWriter (connectReq 2)
  /\ unified_ServeHTTP noDial (NewHandler (Some dialOnly)) plainWriter (connectReq 3)
     = h1_ServeHTTP noDial (NewH1Handler (Some dialOnly)) plainWriter (connectReq 3).
Proof.
  split; [reflexivity |]. split.
  - apply (unified_dispatch_on_major_2 noDial (NewHandler (Some dialOnly))
             plainWriter (connectReq 2)); reflexivity.
  - apply (unified_dispatch_on_major_2 noDial (NewHandler (Some dialOnly))
             plainWriter (connectReq 3)); [reflexivity | discriminate].
Defined.

(** C8, as stated, fails on a CONNECT request of protocol major version 3:
    the version is not 1, yet the unified handler runs the HTTP/1.1
    handshake (which dials upstream) and not the HTTP/2 handshake (which
    would answer 505). *)
Lemma unified_dispatch_major_3_counterexample :
  Method (connectReq 3) = MethodConnect
  /\ ProtoMajor (connectReq 3) <> 1
  /\ unified_ServeHTTP noDial (NewHandler (Some dialOnly)) plainWriter (connectReq 3)
     = h1_ServeHTTP noDial (NewH1Handler (Some dialOnly)) plainWriter (connectReq 3)
  /\ unified_ServeHTTP noDial (NewHandler (Some dialOnly)) plainWriter (connectReq 3)
     <> h2_ServeHTTP noDial (NewH2Handler (Some dialOnly)) plainWriter (connectReq 3)
  /\ statuses (trace (h2_ServeHTTP noDial (NewH2Handler (Some dialOnly)) plainWriter
                        (connectReq 3))) = [StatusHTTPVersionNotSupported]
  /\ dials (serve_unified noDial (Some dialOnly) plainWriter (connectReq 3))
     = [("tcp", "example.com:443")].
Proof.
  split; [reflexivity |]. split; [discriminate |]. split; [reflexivity |].
  split; [vm_compute; discriminate |]. split; reflexivity.
Qed.


End ServerSpec.

(** ** Client dialers and connection adapters *)

Module ClientSpec.
Import Client.

Ltac simp :=
  cbn -[String.eqb Z.eqb String.append HasPrefix maps_Copy] in *.

Ltac branch :=
  match goal with
  | |- context [match ?x with _ => _ end] =>
      lazymatch x with
      | context [match _ with _ => _ end] => fail
      | _ => destruct x eqn:?; simp
      end
  | |- context [if ?x then _ else _] => destruct x eqn:?; simp
  end.

Ltac unfold_dialers :=
  unfold DialContext, h1_DialContext, h2_DialContext, call_dial, Close, when,
    newStreamConnRW.

Lemma not_ok_test (code : Z) :
  code <> StatusOK -> negb (code =? StatusOK)%Z = true.
Proof. intros H. destruct (Z.eqb_spec code StatusOK); [contradiction | reflexivity]. Qed.

Section Facts.

Variable closeResult : object -> option error.
Variable req_Write : rawConn -> Request -> option error.
Variable http_ReadResponse : rawConn -> Request -> Response + error.
Variable io_Pipe : nat.

(** C2. A call of [DialContext] on a [tcp] network whose proxy answers
    with a status that is not 200 returns no connection and a [ProxyError]
    with the status code and the status line of that answer, after closing
    everything it opened.  HTTP/1.1 dialer: the dial function gives a
    socket, the request is written, the response is read; the run closes
    the response body and then the connection to the proxy.  HTTP/2
    dialer: the header function, if there is one, answers headers, and the
    round trip of the request answers the response; the run closes the
    response body, the pipe reader and the pipe writer. *)
Theorem non_200_gives_ProxyError network address resp :
  HasPrefix network "tcp" = true ->
  resp_StatusCode resp <> StatusOK ->
  let refused : DialResult :=
    (None, Some (ErrProxy
       (mkProxyError (resp_StatusCode resp) (resp_Status resp) ""))) in
  (forall d s,
     let conn := if useTLS d then tls_Client (TCPConn s) (h1_tlsConfig d)
                 else TCPConn s in
     let req := mkRequest MethodConnect address "HTTP/1.1" 1 1
                  (maps_Copy [] (header d)) None 0 address "" in
     dial d network (proxyAddr d) = inl s ->
     req_Write conn req = None ->
     http_ReadResponse conn req = inl resp ->
     DialContext closeResult req_Write http_ReadResponse io_Pipe
       (DialerH1 d) network address
     = ([EvDial network (proxyAddr d) (inl s);
         EvReqWrite conn req None;
         EvReadResponse conn (inl resp);
         EvClose (ObjStream (resp_Body resp))
           (closeResult (ObjStream (resp_Body resp)));
         EvClose (ObjConn conn) (closeResult (ObjConn conn))],
        refused))
  /\ (forall d,
        let pr := PipeReader io_Pipe in
        let pw := PipeWriter io_Pipe in
        let base := mkRequest MethodConnect (proxyURL d) "" 0 0
                      [] (Some pr) (-1) address "" in
        let req :=
          match headerFunc d with
          | None => base
          | Some f =>
              let left := fst (f base) in
              mkRequest (Method left) (URL left) (Proto left)
                (ProtoMajor left) (ProtoMinor left)
                (maps_Copy (ReqHeader left)
                   match snd (f base) with inl hd => hd | inr _ => [] end)
                (ReqBody left) (ContentLength left) (Host left)
                (RequestURI left)
          end in
        (forall f err, headerFunc d = Some f -> snd (f base) <> inr err) ->
        transport d req = inl resp ->
        DialContext closeResult req_Write http_ReadResponse io_Pipe
          (DialerH2 d) network address
        = ((EvPipe io_Pipe
             :: match headerFunc d with
                | None => []
                | Some f => [EvHeaderFunc base (snd (f base))]
                end
             ++ [EvRoundTrip req (inl resp);
                 EvClose (ObjStream (resp_Body resp))
                   (closeResult (ObjStream (resp_Body resp)));
                 EvClose (ObjStream pr) (closeResult (ObjStream pr));
                 EvClose (ObjStream pw) (closeResult (ObjStream pw))])%list,
           refused)).
Proof.
  intros Hp Hne refused. subst refused. split.
  - intros d s conn req Hd Hw Hr. subst conn req.
    unfold_dialers; unfold run. rewrite Hp. simp. rewrite Hd. simp.
    rewrite Hw. simp. rewrite Hr. simp.
    rewrite (not_ok_test _ Hne). reflexivity.
  - intros d pr pw base req Hf Ht. subst req pr pw base.
    unfold_dialers; unfold run. rewrite Hp. simp.
    destruct (headerFunc d) as [f |]; simp.
    + destruct (snd (f _)) as [hd | err] eqn:Hh;
        [| exfalso; exact (Hf f err eq_refl Hh)].
      simp. rewrite Ht. simp. rewrite (not_ok_test _ Hne). reflexivity.
    + rewrite Ht. simp. rewrite (not_ok_test _ Hne). reflexivity.
Qed.

(** C6. [Close] of an [h2Conn] closes the reader and then the writer,
    whatever the first close answers, and returns the first error: the
    error of the reader if there is one, else what closing the writer
    answered.  [Close] of a [streamConnRW] is that of the [h2Conn] it
    wraps.  [Close] of a [tunnelConn] with an extra closer closes the
    connection and then the closer, and returns the first error likewise. *)
Theorem close_attempts_both_first_error :
  (forall c : h2Conn,
     run (h2Conn_Close closeResult c)
     = ([EvClose (ObjStream (reader c)) (closeResult (ObjStream (reader c)));
         EvClose (ObjStream (writer c)) (closeResult (ObjStream (writer c)))],
        match closeResult (ObjStream (reader c)) with
        | Some err1 => Some err1
        | None => closeResult (ObjStream (writer c))
        end))
  /\ (forall rwc a,
        run (Conn_Close closeResult (streamConnRW rwc a))
        = run (h2Conn_Close closeResult rwc))
  /\ (forall c cl,
        run (Conn_Close closeResult (tunnelConn c (Some cl)))
        = ((fst (run (Conn_Close closeResult c))
              ++ [EvClose cl (closeResult cl)])%list,
           match snd (run (Conn_Close closeResult c)) with
           | Some err1 => Some err1
           | None => closeResult cl
           end)).
Proof.
  split; [| split].
  - intros c. unfold h2Conn_Close, Close, run. simp.
    destruct (closeResult (ObjStream (reader c))); reflexivity.
  - intros rwc a. unfold run, call. simp.
    now destruct (snd (h2Conn_Close closeResult rwc)).
  - intros c cl. unfold run. simp. unfold call, run, Close. simp.
    destruct (snd (Conn_Close closeResult c)) as [[e |] | [e |]]; simp;
      rewrite ?app_nil_r; reflexivity.
Qed.

(** A network name that does not begin with [tcp] is refused before
    anything is done. *)
Lemma non_tcp_prefix_rejected d network address :
  HasPrefix network "tcp" = false ->
  DialContext closeResult req_Write http_ReadResponse io_Pipe d network address
  = ([], (None, Some (unsupportedNetwork network))).
Proof.
  intros H. destruct d; unfold_dialers; unfold run; rewrite H; reflexivity.
Qed.

(** C9, as the code has it. The connection a successful HTTP/2 dial
    returns has a remote address whose network name is [connecttunnel]
    and whose string is the requested target. *)
Theorem h2_endpoint_remote_addr d network address c err :
  snd (DialContext closeResult req_Write http_ReadResponse io_Pipe
         (DialerH2 d) network address) = (Some c, err) ->
  exists a, RemoteAddr c = Some a
            /\ Network a = "connecttunnel"
            /\ Addr_String a = address.
Proof.
  unfold_dialers; unfold run; simp.
  repeat branch; intros H; try discriminate;
    injection H as <- <-; eexists; repeat split; reflexivity.
Qed.

End Facts.

Import Examples.

Lemma non_200_gives_ProxyError_witness :
  DialContext closeOk writeOk (readAnswers 403 "403 Forbidden") 0%nat
    (DialerH1 h1Through) "tcp" "example.com:443"
  = ([EvDial "tcp" "proxy.example:80" (inl 7%nat);
      EvReqWrite (TCPConn 7%nat)
        (mkRequest "CONNECT" "example.com:443" "HTTP/1.1" 1 1 [] None 0
           "example.com:443" "") None;
      EvReadResponse (TCPConn 7%nat)
        (inl (mkResponse 403 "403 Forbidden" (BodyStream 1%nat)));
      EvClose (ObjStream (BodyStream 1%nat)) None;
      EvClose (ObjConn (TCPConn 7%nat)) None],
     (None, Some (ErrProxy (mkProxyError 403 "403 Forbidden" ""))))
  /\ DialContext closeOk writeOk (readAnswers 403 "403 Forbidden") 0%nat
       (DialerH2 (h2WithHeaders 403 "403 Forbidden")) "tcp" "example.com:443"
     = ([EvPipe 0%nat;
         EvHeaderFunc
           (mkRequest "CONNECT" "https://proxy.example:8443" "" 0 0 []
              (Some (PipeReader 0%nat)) (-1) "example.com:443" "")
           (inl [("Proxy-Authorization", ["Bearer t"])]);
         EvRoundTrip
           (mkRequest "CONNECT" "https://proxy.example:8443" "" 0 0
              [("X-Trace", ["1"]); ("Proxy-Authorization", ["Bearer t"])]
              (Some (PipeReader 0%nat)) (-1) "other.example:443" "")
           (inl (mkResponse 403 "403 Forbidden" (BodyStream 1%nat)));
         EvClose (ObjStream (BodyStream 1%nat)) None;
         EvClose (ObjStream (PipeReader 0%nat)) None;
         EvClose (ObjStream (PipeWriter 0%nat)) None],
        (None, Some (ErrProxy (mkProxyError 403 "403 Forbidden" "")))).
Proof.
  split.
  - apply (proj1 (non_200_gives_ProxyError closeOk writeOk
                    (readAnswers 403 "403 Forbidden") 0%nat
                    "tcp" "example.com:443"
                    (mkResponse 403 "403 Forbidden" (BodyStream 1%nat))
                    eq_refl ltac:(discriminate))
             h1Through 7%nat); reflexivity.
  - apply (proj2 (non_200_gives_ProxyError closeOk writeOk
                    (readAnswers 403 "403 Forbidden") 0%nat
                    "tcp" "example.com:443"
                    (mkResponse 403 "403 Forbidden" (BodyStream 1%nat))
                    eq_refl ltac:(discriminate))
             (h2WithHeaders 403 "403 Forbidden"));
      [intros f err Hf; injection Hf as <-; discriminate | reflexivity].
Defined.

(** C7 at the network name [tcpx], which is none of [tcp], [tcp4], [tcp6]:
    the HTTP/2 dialer runs the round trip to the proxy and returns a
    tunnel connection; the HTTP/1.1 dialer calls its dial function with
    that name, writes the request and returns a connection. *)
Theorem tcpx_network_is_dialed :
  DialContext closeOk writeOk (readAnswers 200 "200 OK") 0%nat
    (DialerH2 (h2Through 200 "200 OK")) "tcpx" "example.com:443"
  = ([EvPipe 0%nat;
      EvRoundTrip
        (mkRequest "CONNECT" "https://proxy.example:8443" "" 0 0 []
           (Some (PipeReader 0%nat)) (-1) "example.com:443" "")
        (inl (mkResponse 200 "200 OK" (BodyStream 1%nat)))],
     (Some (streamConnRW
              (mkH2Conn (BodyStream 1%nat) (PipeWriter 0%nat) (PipeReader 0%nat) (PipeWriter 0%nat))
              (AddrRemote (mkRemoteAddr "example.com:443"))),
      None))
  /\ DialContext closeOk writeOk (readAnswers 200 "200 OK") 0%nat
       (DialerH1 h1Through) "tcpx" "example.com:443"
     = ([EvDial "tcpx" "proxy.example:80" (inl 7%nat);
         EvReqWrite (TCPConn 7%nat)
           (mkRequest "CONNECT" "example.com:443" "HTTP/1.1" 1 1 [] None 0
              "example.com:443" "") None;
         EvReadResponse (TCPConn 7%nat) (inl (mkResponse 200 "200 OK" (BodyStream 1%nat)));
         EvClose (ObjStream (BodyStream 1%nat)) None],
        (Some (bufferedConn (TCPConn 7%nat)), None)).
Proof. split; reflexivity. Qed.

Lemma h2_endpoint_remote_addr_witness :
  snd (DialContext closeOk writeOk (readAnswers 200 "200 OK") 0%nat
         (DialerH2 (h2Through 200 "200 OK")) "tcp" "example.com:443")
  = (Some (streamConnRW
             (mkH2Conn (BodyStream 1%nat) (PipeWriter 0%nat) (PipeReader 0%nat) (PipeWriter 0%nat))
             (AddrRemote (mkRemoteAddr "example.com:443"))),
     None)
  /\ exists a,
       RemoteAddr (streamConnRW
             (mkH2Conn (BodyStream 1%nat) (PipeWriter 0%nat) (PipeReader 0%nat) (PipeWriter 0%nat))
             (AddrRemote (mkRemoteAddr "example.com:443"))) = Some a
       /\ Network a = "connecttunnel" /\ Addr_String a = "example.com:443".
Proof.
  split; [reflexivity |].
  apply (h2_endpoint_remote_addr closeOk writeOk (readAnswers 200 "200 OK") 0%nat
           (h2Through 200 "200 OK") "tcp" "example.com:443" _ None).
  reflexivity.
Defined.

(** C9, as stated, fails on the connection of a successful HTTP/2 dial to
    [example.com:443]: the network name of its remote address is not
    [tunnel]. *)
Lemma remote_network_tunnel_counterexample :
  exists c a,
    snd (DialContext closeOk writeOk (readAnswers 200 "200 OK") 0%nat
           (DialerH2 (h2Through 200 "200 OK")) "tcp" "example.com:443")
    = (Some c, None)
    /\ RemoteAddr c = Some a
    /\ Network a <> "tunnel"
    /\ Addr_String a = "example.com:443".
Proof.
  eexists. eexists. split; [reflexivity |]. split; [reflexivity |].
  split; [discriminate | reflexivity].
Qed.

End ClientSpec.

(** ** The copy loop *)

Module CopySpec.
Import Copy.

Ltac simp := cbn -[Z.gtb Z.ltb Z.eqb bufLen] in *.

(** One turn of the loop, as an equation on complete runs: the events of
    the turn, then either the end of the task or the rest of the run. *)
Lemma task_step flusher nr er reads writes :
  task flusher ((nr, er) :: reads) writes
  = let continue ws :=
        match er with
        | Some e => ([], Sent e)
        | None => task flusher reads ws
        end in
    let rd := EvRead bufLen (nr, er) in
    if (nr >? 0)%Z then
      if (nr >? bufLen)%Z then ([rd], Panicked)
      else match writes with
           | [] => ([rd], Blocked)
           | (nw, ew) :: ws =>
               let evs := (rd :: EvWrite nr (nw, ew)
                             :: if flusher then [EvFlush] else [])%list in
               if ((nw <? 0) || (nr <? nw))%Z then
                 (evs, Sent match ew with
                            | None => ErrNew "invalid write result"
                            | Some e => e
                            end)
               else match ew with
                    | Some e => (evs, Sent e)
                    | None =>
                        if negb (nr =? nw)%Z then (evs, Sent io_ErrShortWrite)
                        else ((evs ++ fst (continue ws))%list, snd (continue ws))
                    end
           end
    else ((rd :: fst (continue writes))%list, snd (continue writes)).
Proof.
  unfold task, run. simp. unfold when.
  destruct (nr >? 0)%Z; simp.
  - destruct (nr >? bufLen)%Z; simp; [reflexivity |].
    destruct writes as [| [nw ew] ws]; simp; [reflexivity |].
    destruct flusher; simp;
      (destruct ((nw <? 0) || (nr <? nw))%Z; simp;
       [destruct ew; reflexivity |
        destruct ew; simp; [reflexivity |];
        destruct (negb (nr =? nw)%Z); simp; [reflexivity |];
        destruct er; reflexivity]).
  - destruct er; reflexivity.
Qed.

Lemma task_nil flusher writes : task flusher [] writes = ([], Blocked).
Proof. reflexivity. Qed.



(** ** The loop of [io.Copy] *)














End CopySpec.

(** ** Further properties of the server handshakes *)

Module ServerExtra.
Import Server Observe.

Ltac simp := cbn -[String.eqb Z.eqb String.append established] in *.

Ltac branch :=
  match goal with
  | |- context [match ?x with _ => _ end] =>
      lazymatch x with
      | context [match _ with _ => _ end] => fail
      | _ => destruct x eqn:?; simp
      end
  | |- context [if ?x then _ else _] => destruct x eqn:?; simp
  end.

Ltac unfold_handlers :=
  unfold serve_unified, serve, trace, unified_ServeHTTP, h1_ServeHTTP,
    h2_ServeHTTP, checkTunnel, when, NewHandler, NewH1Handler, NewH2Handler.

(** Splitting a membership in a concrete list into its cases. *)
Ltac cases_in H :=
  repeat (destruct H as [H | H]; try discriminate); try contradiction.

Section Facts.

Variable netDial : DialFunc.

(** X1. No socket leaks: every socket a handshake got hold of, the upstream
    socket of a successful dial as well as the hijacked client socket, is
    closed before the handler returns or handed to the copy engine. *)
Theorem sockets_closed_or_handed_over k cfg w req :
  incl (acquired (serve netDial k cfg w req))
       (closed_sockets (serve netDial k cfg w req)
        ++ handed_over (serve netDial k cfg w req))%list.
Proof.
  destruct k; unfold_handlers; simp; repeat branch;
    intros x Hx; simp; intuition.
Qed.

(** X2. A run sends at most one status through the HTTP layer, and only the
    codes of its handshake: 405, 400, 403, 502, 500 over HTTP/1.1 (the 200
    of a tunnel is written on the hijacked socket), and these, 505 and 200
    over HTTP/2. *)
Theorem one_status_of_the_handshake k cfg w req :
  (List.length (statuses (serve netDial k cfg w req)) <= 1)%nat
  /\ incl (statuses (serve netDial k cfg w req))
          match k with
          | HTTP1 => [405; 400; 403; 502; 500]
          | HTTP2 => [505; 405; 400; 403; 502; 500; 200]
          end.
Proof.
  destruct k; unfold_handlers; simp; repeat branch;
    (split; [simp; lia | intros x Hx; simp; intuition]).
Qed.

(** X3. When the upstream dial fails the answer is 502 and the run holds no
    socket: nothing was hijacked and no tunnel is started. *)
Theorem dial_failure_bad_gateway k cfg w req n a e :
  In (EvDial n a (inr e)) (serve netDial k cfg w req) ->
  statuses (serve netDial k cfg w req) = [StatusBadGateway]
  /\ acquired (serve netDial k cfg w req) = []
  /\ handed_over (serve netDial k cfg w req) = [].
Proof.
  destruct k; unfold_handlers; simp; repeat branch;
    intros H; cases_in H; try (repeat split; reflexivity);
    injection H as _ _ H; congruence.
Qed.

(** X4. A request refused for its shape (405 wrong method, 400 no target, 505
    not HTTP/2) is refused before the authorization callback and the dial
    function are called. *)
Theorem validation_precedes_callbacks k cfg w req code :
  In code (statuses (serve netDial k cfg w req)) ->
  In code [StatusMethodNotAllowed; StatusBadRequest; StatusHTTPVersionNotSupported] ->
  authorizations (serve netDial k cfg w req) = []
  /\ dials (serve netDial k cfg w req) = [].
Proof.
  unfold StatusMethodNotAllowed, StatusBadRequest, StatusHTTPVersionNotSupported.
  destruct k; unfold_handlers; simp; repeat branch;
    intros H1 H2; try (split; reflexivity); exfalso;
    cases_in H1; subst code; cases_in H2.
Qed.

(** X5. Upstream is dialed only once, on network [tcp], to the target of the
    request, through the configured dial function, and only after the
    authorization callback (when there is one) returned nil. *)
Theorem dial_only_after_authorization k cfg w req n a r :
  In (EvDial n a r) (serve netDial k cfg w req) ->
  let c := match cfg with None => emptyServerConfig | Some c => c end in
  dials (serve netDial k cfg w req) = [("tcp", target k req)]
  /\ n = "tcp" /\ a = target k req
  /\ r = getDialFunc netDial c "tcp" (target k req)
  /\ authorizations (serve netDial k cfg w req)
     = match OnTunnel c with Some _ => [None] | None => [] end.
Proof.
  intros H c. revert H. subst c.
  destruct k; unfold_handlers; simp; repeat branch;
    intros H; cases_in H; injection H as <- <- <-;
    repeat split; congruence.
Qed.

(** X6. The HTTP/2 handshake starts the tunnel only at the end of one fixed
    sequence: upstream dialed, full duplex enabled, status 200 written,
    headers flushed. *)
Theorem h2_tunnel_after_flush cfg w req s :
  In (EvTunnel s) (serve netDial HTTP2 cfg w req) ->
  let c := match cfg with None => emptyServerConfig | Some c => c end in
  serve netDial HTTP2 cfg w req
  = (match OnTunnel c with Some _ => [EvOnTunnel req None] | None => [] end
     ++ [EvDial "tcp" (Host req) (inl s); EvEnableFullDuplex None;
         EvWriteHeader StatusOK; EvFlush None; EvTunnel s])%list.
Proof.
  intros H c. revert H. subst c.
  unfold_handlers; simp; repeat branch;
    intros H; cases_in H; injection H as <-; reflexivity.
Qed.

(** X7. On every request, CONNECT or not, the unified handler behaves as the
    HTTP/2 handler when the major version is 2 and as the HTTP/1.1 handler
    otherwise; so it never answers 505. *)
Theorem unified_is_one_of_the_handshakes (h : unifiedHandler) w req :
  unified_ServeHTTP netDial h w req
  = (if (ProtoMajor req =? 2)%Z then h2_ServeHTTP netDial (u_h2 h) w req
     else h1_ServeHTTP netDial (u_h1 h) w req)
  /\ forall cfg,
       Forall (fun code => code <> StatusHTTPVersionNotSupported)
              (statuses (serve_unified netDial cfg w req)).
Proof.
  assert (E : forall h', unified_ServeHTTP netDial h' w req
            = if (ProtoMajor req =? 2)%Z then h2_ServeHTTP netDial (u_h2 h') w req
              else h1_ServeHTTP netDial (u_h1 h') w req).
  { intros h'. unfold unified_ServeHTTP, h1_ServeHTTP, h2_ServeHTTP, when.
    destruct (ProtoMajor req =? 2)%Z;
      destruct (negb (Method req =? MethodConnect)); simp;
      rewrite ?bind_ret_l; reflexivity. }
  split; [apply E |].
  intros cfg. unfold serve_unified, trace. rewrite E.
  unfold StatusHTTPVersionNotSupported.
  destruct (ProtoMajor req =? 2)%Z eqn:Hp;
    unfold h1_ServeHTTP, h2_ServeHTTP, checkTunnel, when, NewHandler,
      NewH1Handler, NewH2Handler; rewrite ?Hp; simp; repeat branch;
    repeat constructor; discriminate.
Qed.

End Facts.
Import Examples.

Lemma dial_failure_bad_gateway_witness :
  In (EvDial "tcp" "example.com:443" (inr (ErrNew "dial: unreachable")))
     (serve noDial HTTP1 None hijackable (connectReq 1))
  /\ statuses (serve noDial HTTP1 None hijackable (connectReq 1))
     = [StatusBadGateway]
  /\ acquired (serve noDial HTTP1 None hijackable (connectReq 1)) = []
  /\ handed_over (serve noDial HTTP1 None hijackable (connectReq 1)) = [].
Proof.
  split; [vm_compute; auto |].
  apply (dial_failure_bad_gateway noDial HTTP1 None hijackable (connectReq 1)
           "tcp" "example.com:443" (ErrNew "dial: unreachable")).
  vm_compute; auto.
Defined.

Lemma validation_precedes_callbacks_witness :
  In 505 (statuses (serve okDial HTTP2 (Some rejectAll) plainWriter (connectReq 1)))
  /\ In 505 [StatusMethodNotAllowed; StatusBadRequest; StatusHTTPVersionNotSupported]
  /\ authorizations (serve okDial HTTP2 (Some rejectAll) plainWriter (connectReq 1)) = []
  /\ dials (serve okDial HTTP2 (Some rejectAll) plainWriter (connectReq 1)) = [].
Proof.
  split; [vm_compute; auto |]. split; [vm_compute; auto |].
  apply (validation_precedes_callbacks okDial HTTP2 (Some rejectAll) plainWriter
           (connectReq 1) 505); vm_compute; auto.
Defined.

Lemma dial_only_after_authorization_witness :
  In (EvDial "tcp" "example.com:443" (inl 7%nat))
     (serve noDial HTTP1
        (Some (mkServerConfig (Some (fun _ => None)) (Some okDial) None))
        plainWriter (connectReq 1))
  /\ authorizations
       (serve noDial HTTP1
          (Some (mkServerConfig (Some (fun _ => None)) (Some okDial) None))
          plainWriter (connectReq 1)) = [None].
Proof.
  split; [vm_compute; auto |].
  apply (dial_only_after_authorization noDial HTTP1
           (Some (mkServerConfig (Some (fun _ => None)) (Some okDial) None))
           plainWriter (connectReq 1) "tcp" "example.com:443" (inl 7%nat)).
  vm_compute; auto.
Defined.

Lemma h2_tunnel_after_flush_witness :
  In (EvTunnel 7%nat) (serve noDial HTTP2 (Some dialOnly) plainWriter (connectReq 2))
  /\ serve noDial HTTP2 (Some dialOnly) plainWriter (connectReq 2)
     = [EvDial "tcp" "example.com:443" (inl 7%nat); EvEnableFullDuplex None;
        EvWriteHeader 200; EvFlush None; EvTunnel 7%nat].
Proof.
  split; [vm_compute; auto 10 |].
  apply (h2_tunnel_after_flush noDial (Some dialOnly) plainWriter (connectReq 2) 7%nat).
  vm_compute; auto 10.
Defined.

End ServerExtra.

(** ** Further properties of the dialers and the adapters *)

Module ClientExtra.
Import Client Observe.

Ltac simp :=
  cbn -[String.eqb Z.eqb String.append HasPrefix maps_Copy] in *.

Ltac branch :=
  match goal with
  | |- context [match ?x with _ => _ end] =>
      lazymatch x with
      | context [match _ with _ => _ end] => fail
      | _ => destruct x eqn:?; simp
      end
  | |- context [if ?x then _ else _] => destruct x eqn:?; simp
  end.

Ltac unfold_dialers :=
  unfold DialContext, h1_DialContext, h2_DialContext, call_dial, Close, when,
    newStreamConnRW, run.

Ltac cases_in H :=
  repeat (destruct H as [H | H]; try discriminate); try contradiction.

Section Facts.

Variable closeResult : object -> option error.
Variable req_Write : rawConn -> Request -> option error.
Variable http_ReadResponse : rawConn -> Request -> Response + error.
Variable io_Pipe : nat.

(** X8. A call of [DialContext] returns a connection or an error, never both
    and never neither. *)
Theorem connection_or_error d network address :
  match snd (DialContext closeResult req_Write http_ReadResponse io_Pipe
               d network address) with
  | (Some _, None) | (None, Some _) => True
  | _ => False
  end.
Proof.
  destruct d; unfold_dialers; simp; repeat branch; exact I.
Qed.

(** X9. A failed dial leaks nothing: when no connection is returned, whatever
    the reason, every resource the call opened has been closed. *)
Theorem failed_dial_releases_everything d network address :
  fst (snd (DialContext closeResult req_Write http_ReadResponse io_Pipe
              d network address)) = None ->
  incl (opened (fst (DialContext closeResult req_Write http_ReadResponse io_Pipe
                       d network address)))
       (released (fst (DialContext closeResult req_Write http_ReadResponse io_Pipe
                         d network address))).
Proof.
  destruct d as [d1 | d2]; unfold_dialers; simp.
  - destruct (negb (HasPrefix network "tcp")); simp; [intros _ x [] |].
    destruct (dial d1 network (proxyAddr d1)) as [s | err]; simp; [| intros _ x []].
    set (conn := if useTLS d1 then _ else _).
    assert (Hs : socket_of conn = s) by (subst conn; destruct (useTLS d1); reflexivity).
    repeat branch; intros H; try discriminate; rewrite ?Hs;
      intros x Hx; simp; intuition.
  - repeat branch; intros H; try discriminate; intros x Hx; simp; intuition.
Qed.

(** X10. A dial succeeds only on a 200 of the proxy, and leaves the tunnel
    open: the HTTP/1.1 dialer has closed nothing but the (empty) response
    body and returns the proxy connection behind the buffered reader; the
    HTTP/2 dialer has closed nothing and returns the adapter over response
    body and pipe writer. *)
Theorem successful_dial_keeps_tunnel_open d network address c :
  fst (snd (DialContext closeResult req_Write http_ReadResponse io_Pipe
              d network address)) = Some c ->
  exists resp,
    responses (fst (DialContext closeResult req_Write http_ReadResponse io_Pipe
                      d network address)) = [resp]
    /\ resp_StatusCode resp = StatusOK
    /\ HasPrefix network "tcp" = true
    /\ match d with
       | DialerH1 d1 =>
           exists s,
             dial d1 network (proxyAddr d1) = inl s
             /\ c = bufferedConn (if useTLS d1
                                  then tls_Client (TCPConn s) (h1_tlsConfig d1)
                                  else TCPConn s)
             /\ closed (fst (DialContext closeResult req_Write http_ReadResponse
                               io_Pipe d network address))
                = [ObjStream (resp_Body resp)]
       | DialerH2 _ =>
           c = streamConnRW
                 (mkH2Conn (resp_Body resp) (PipeWriter io_Pipe)
                    (PipeReader io_Pipe) (PipeWriter io_Pipe))
                 (AddrRemote (mkRemoteAddr address))
           /\ closed (fst (DialContext closeResult req_Write http_ReadResponse
                             io_Pipe d network address)) = []
       end.
Proof.
  destruct d as [d1 | d2]; unfold_dialers; simp.
  - destruct (HasPrefix network "tcp") eqn:Hp; simp; [| discriminate].
    destruct (dial d1 network (proxyAddr d1)) as [s | err]; simp; [| discriminate].
    repeat branch; intros H; try discriminate; injection H as <-;
      (eexists; split; [reflexivity |]; split;
       [apply Z.eqb_eq; now apply negb_false_iff |];
       split; [reflexivity |]; eexists; repeat split; reflexivity).
  - destruct (HasPrefix network "tcp") eqn:Hp; simp; [| discriminate].
    repeat branch; intros H; try discriminate; injection H as <-;
      (eexists; split; [reflexivity |]; split;
       [apply Z.eqb_eq; now apply negb_false_iff |];
       split; [reflexivity |]; split; reflexivity).
Qed.

(** X11. What a failed dial returns tells the failures apart: a network name
    without the [tcp] prefix is refused before anything is done; a failure
    to reach the proxy or to complete the exchange wraps
    [ErrProxyConnect] and no response was seen; a response other than 200
    gives a [ProxyError], which does not wrap [ErrProxyConnect]. *)
Theorem dial_errors_tell_failures_apart d network address e :
  snd (snd (DialContext closeResult req_Write http_ReadResponse io_Pipe
              d network address)) = Some e ->
  (HasPrefix network "tcp" = false
   /\ e = unsupportedNetwork network
   /\ fst (DialContext closeResult req_Write http_ReadResponse io_Pipe
             d network address) = [])
  \/ (exists rest,
        e = ErrWrap ErrProxyConnect
              ("connecttunnel: proxy connection failed: " ++ rest)
        /\ responses (fst (DialContext closeResult req_Write http_ReadResponse
                             io_Pipe d network address)) = [])
  \/ (exists resp,
        e = ErrProxy (mkProxyError (resp_StatusCode resp) (resp_Status resp) "")
        /\ resp_StatusCode resp <> StatusOK
        /\ responses (fst (DialContext closeResult req_Write http_ReadResponse
                             io_Pipe d network address)) = [resp]).
Proof.
  destruct d as [d1 | d2]; unfold_dialers; unfold wrapProxyConnect; simp;
    (destruct (HasPrefix network "tcp") eqn:Hp; simp;
     [| intros H; injection H as <-; left; repeat split; reflexivity]);
    repeat branch; intros H; try discriminate; injection H as <-;
    right;
    first [ left; eexists; split; reflexivity
          | right; eexists; split; [reflexivity |]; split; [| reflexivity];
            apply Z.eqb_neq; now apply negb_true_iff ].
Qed.

(** X12. The request the HTTP/1.1 dialer writes: CONNECT to the target, in
    authority form, as HTTP/1.1, without body, with a fresh header map
    that holds the configured headers; it goes over the dialed socket,
    inside [tls.Client] exactly when the proxy URL is https. *)
Theorem h1_request_written d network address c req r :
  In (EvReqWrite c req r)
     (fst (DialContext closeResult req_Write http_ReadResponse io_Pipe
             (DialerH1 d) network address)) ->
  req = mkRequest "CONNECT" address "HTTP/1.1" 1 1 (maps_Copy [] (header d))
          None 0 address ""
  /\ exists s,
       dial d network (proxyAddr d) = inl s
       /\ c = if useTLS d then tls_Client (TCPConn s) (h1_tlsConfig d)
              else TCPConn s.
Proof.
  unfold_dialers; simp; repeat branch; intros H; cases_in H;
    injection H as <- <- _; split; try reflexivity; eexists; split; reflexivity.
Qed.





(** X15. [Close] of any connection of the package returns the first error its
    close calls met, nil when all succeeded, and makes at least one call. *)
Theorem close_returns_first_error (c : net_Conn) :
  snd (run (Conn_Close closeResult c))
  = first_error (close_results (fst (run (Conn_Close closeResult c))))
  /\ fst (run (Conn_Close closeResult c)) <> [].
Proof.
  induction c as [c | c | rwc a | body a | c IH cl].
  - unfold run, Close; simp. split; [now destruct (closeResult _) | discriminate].
  - unfold run, Close; simp. split; [now destruct (closeResult _) | discriminate].
  - unfold run, call, h2Conn_Close, Close; simp. split; [| discriminate].
    destruct (closeResult (ObjStream (reader rwc)));
      destruct (closeResult (ObjStream (writer rwc))); reflexivity.
  - unfold run, Close; simp. split; [now destruct (closeResult _) | discriminate].
  - destruct IH as [IH1 IH2]. unfold run in *. simp. unfold call, run, Close. simp.
    set (m := Conn_Close closeResult c) in *.
    assert (F : forall t1 t2, close_results (t1 ++ t2)
                              = (close_results t1 ++ close_results t2)%list)
      by (intros; unfold close_results; apply flat_map_app).
    assert (G : forall r1 r2, first_error (r1 ++ r2)
                = match first_error r1 with Some e => Some e | None => first_error r2 end).
    { induction r1 as [| [e |] r1 IHr]; intros r2; simp; auto. }
    destruct cl as [cl |]; simp.
    + destruct (snd m) as [[e |] | [e |]] eqn:Hm; simp; rewrite ?app_nil_r.
      all: split; [| intros H; apply app_eq_nil in H; destruct H; auto; discriminate].
      all: rewrite flat_map_app, G, <- IH1; simp; try reflexivity;
        now destruct (closeResult cl).
    + destruct (snd m) as [[e |] | [e |]] eqn:Hm; simp; rewrite ?app_nil_r;
        (split; [exact IH1 | exact IH2]).
Qed.

(** X16. Dial, then close, over HTTP/1.1: closing the connection a successful
    dial returned releases the socket to the proxy, so that everything the
    dial opened is released. *)
Theorem h1_dial_then_close_releases d network address c :
  fst (snd (DialContext closeResult req_Write http_ReadResponse io_Pipe
              (DialerH1 d) network address)) = Some c ->
  incl (opened (fst (DialContext closeResult req_Write http_ReadResponse io_Pipe
                       (DialerH1 d) network address)))
       (released (fst (DialContext closeResult req_Write http_ReadResponse io_Pipe
                         (DialerH1 d) network address)
                  ++ fst (run (Conn_Close closeResult c)))).
Proof.
  unfold_dialers; simp.
  destruct (negb (HasPrefix network "tcp")); simp; [discriminate |].
  destruct (dial d network (proxyAddr d)) as [s | err]; simp; [| discriminate].
  set (conn := if useTLS d then _ else _).
  assert (Hs : socket_of conn = s) by (subst conn; destruct (useTLS d); reflexivity).
  repeat branch; intros H; try discriminate; injection H as <-;
    unfold Close; simp; rewrite ?Hs; intros x Hx; simp; intuition.
Qed.

(** X17. Dial, then close, over HTTP/2: closing the connection a successful
    dial returned closes the response body and then the write end of the
    pipe, whatever the first close answers, and nothing else; the read end
    of the pipe, which is the body of the request, is not closed by the
    adapter. *)
Theorem h2_dial_then_close d network address c :
  fst (snd (DialContext closeResult req_Write http_ReadResponse io_Pipe
              (DialerH2 d) network address)) = Some c ->
  exists resp,
    responses (fst (DialContext closeResult req_Write http_ReadResponse io_Pipe
                      (DialerH2 d) network address)) = [resp]
    /\ opened (fst (DialContext closeResult req_Write http_ReadResponse io_Pipe
                      (DialerH2 d) network address))
       = [ResStream (PipeReader io_Pipe); ResStream (PipeWriter io_Pipe);
          ResStream (resp_Body resp)]
    /\ released (fst (run (Conn_Close closeResult c)))
       = [ResStream (resp_Body resp); ResStream (PipeWriter io_Pipe)].
Proof.
  unfold_dialers; simp.
  repeat branch; intros H; try discriminate; injection H as <-;
    (eexists; split; [reflexivity |]; split; [reflexivity |]);
    unfold call, run, h2Conn_Close, Close; simp;
    now destruct (closeResult (ObjStream (resp_Body _))).
Qed.

End Facts.
Import Examples.

Lemma failed_dial_releases_everything_witness :
  fst (snd (DialContext closeOk writeOk (readAnswers 403 "403 Forbidden") 0%nat
              (DialerH1 h1Through) "tcp" "example.com:443")) = None
  /\ incl [ResSock 7%nat; ResStream (BodyStream 1)]
          (released (fst (DialContext closeOk writeOk
                            (readAnswers 403 "403 Forbidden") 0%nat
                            (DialerH1 h1Through) "tcp" "example.com:443"))).
Proof.
  split; [reflexivity |].
  apply (failed_dial_releases_everything closeOk writeOk
           (readAnswers 403 "403 Forbidden") 0%nat (DialerH1 h1Through)
           "tcp" "example.com:443").
  reflexivity.
Defined.

Lemma successful_dial_keeps_tunnel_open_witness :
  fst (snd (DialContext closeOk writeOk (readAnswers 200 "200 OK") 0%nat
              (DialerH2 (h2Through 200 "200 OK")) "tcp" "example.com:443"))
  = Some (streamConnRW
            (mkH2Conn (BodyStream 1) (PipeWriter 0) (PipeReader 0) (PipeWriter 0))
            (AddrRemote (mkRemoteAddr "example.com:443")))
  /\ exists resp,
       responses (fst (DialContext closeOk writeOk (readAnswers 200 "200 OK") 0%nat
                         (DialerH2 (h2Through 200 "200 OK")) "tcp" "example.com:443"))
       = [resp]
       /\ resp_StatusCode resp = StatusOK.
Proof.
  split; [reflexivity |].
  destruct (successful_dial_keeps_tunnel_open closeOk writeOk
              (readAnswers 200 "200 OK") 0%nat (DialerH2 (h2Through 200 "200 OK"))
              "tcp" "example.com:443" _ eq_refl) as (resp & Hr & Hc & _).
  exists resp. split; assumption.
Defined.

Lemma dial_errors_tell_failures_apart_witness :
  snd (snd (DialContext closeOk writeOk (readAnswers 200 "200 OK") 0%nat
              (DialerH1 (mkH1Dialer "proxy.example:80" "proxy.example" false None
                           [] noDial))
              "tcp" "example.com:443"))
  = Some (ErrWrap ErrProxyConnect
            "connecttunnel: proxy connection failed: dial: unreachable")
  /\ (HasPrefix "tcp" "tcp" = false
      /\ ErrWrap ErrProxyConnect
           "connecttunnel: proxy connection failed: dial: unreachable"
         = unsupportedNetwork "tcp"
      /\ fst (DialContext closeOk writeOk (readAnswers 200 "200 OK") 0%nat
                (DialerH1 (mkH1Dialer "proxy.example:80" "proxy.example" false None
                             [] noDial))
                "tcp" "example.com:443") = []
      \/ (exists rest,
            ErrWrap ErrProxyConnect
              "connecttunnel: proxy connection failed: dial: unreachable"
            = ErrWrap ErrProxyConnect
                ("connecttunnel: proxy connection failed: " ++ rest)
            /\ responses
                 (fst (DialContext closeOk writeOk (readAnswers 200 "200 OK") 0%nat
                         (DialerH1 (mkH1Dialer "proxy.example:80" "proxy.example"
                                      false None [] noDial))
                         "tcp" "example.com:443")) = [])
      \/ (exists resp,
            ErrWrap ErrProxyConnect
              "connecttunnel: proxy connection failed: dial: unreachable"
            = ErrProxy (mkProxyError (resp_StatusCode resp) (resp_Status resp) "")
            /\ resp_StatusCode resp <> StatusOK
            /\ responses
                 (fst (DialContext closeOk writeOk (readAnswers 200 "200 OK") 0%nat
                         (DialerH1 (mkH1Dialer "proxy.example:80" "proxy.example"
                                      false None [] noDial))
                         "tcp" "example.com:443")) = [resp])).
Proof.
  split; [reflexivity |].
  apply (dial_errors_tell_failures_apart closeOk writeOk (readAnswers 200 "200 OK")
           0%nat
           (DialerH1 (mkH1Dialer "proxy.example:80" "proxy.example" false None
                        [] noDial))
           "tcp" "example.com:443").
  reflexivity.
Defined.

Lemma h1_request_written_witness :
  In (EvReqWrite (tls_Client (TCPConn 7%nat) (mkTLSConfig "proxy.example" 0))
        (mkRequest "CONNECT" "example.com:443" "HTTP/1.1" 1 1 [] None 0
           "example.com:443" "") None)
     (fst (DialContext closeOk writeOk (readAnswers 200 "200 OK") 0%nat
             (DialerH1 (mkH1Dialer "proxy.example:443" "proxy.example" true None
                          [] okDial))
             "tcp" "example.com:443"))
  /\ exists s,
       okDial "tcp" "proxy.example:443" = inl s
       /\ tls_Client (TCPConn 7%nat) (mkTLSConfig "proxy.example" 0)
          = tls_Client (TCPConn s) (mkTLSConfig "proxy.example" 0).
Proof.
  split; [vm_compute; auto |].
  apply (proj2 (h1_request_written closeOk writeOk (readAnswers 200 "200 OK") 0%nat
                  (mkH1Dialer "proxy.example:443" "proxy.example" true None [] okDial)
                  "tcp" "example.com:443"
                  (tls_Client (TCPConn 7%nat) (mkTLSConfig "proxy.example" 0))
                  (mkRequest "CONNECT" "example.com:443" "HTTP/1.1" 1 1 [] None 0
                     "example.com:443" "")
                  None ltac:(vm_compute; auto))).
Defined.



Lemma h1_dial_then_close_releases_witness :
  fst (snd (DialContext closeOk writeOk (readAnswers 200 "200 OK") 0%nat
              (DialerH1 h1Through) "tcp" "example.com:443"))
  = Some (bufferedConn (TCPConn 7%nat))
  /\ incl [ResSock 7%nat; ResStream (BodyStream 1)]
          (released
             (fst (DialContext closeOk writeOk (readAnswers 200 "200 OK") 0%nat
                     (DialerH1 h1Through) "tcp" "example.com:443")
              ++ fst (run (Conn_Close closeOk (bufferedConn (TCPConn 7%nat)))))).
Proof.
  split; [reflexivity |].
  apply (h1_dial_then_close_releases closeOk writeOk (readAnswers 200 "200 OK")
           0%nat h1Through "tcp" "example.com:443" (bufferedConn (TCPConn 7%nat))).
  reflexivity.
Defined.

Lemma h2_dial_then_close_witness :
  fst (snd (DialContext closeOk writeOk (readAnswers 200 "200 OK") 0%nat
              (DialerH2 (h2Through 200 "200 OK")) "tcp" "example.com:443"))
  = Some (streamConnRW
            (mkH2Conn (BodyStream 1) (PipeWriter 0) (PipeReader 0) (PipeWriter 0))
            (AddrRemote (mkRemoteAddr "example.com:443")))
  /\ exists resp,
       released
         (fst (run (Conn_Close closeOk
            (streamConnRW
               (mkH2Conn (BodyStream 1) (PipeWriter 0) (PipeReader 0) (PipeWriter 0))
               (AddrRemote (mkRemoteAddr "example.com:443"))))))
       = [ResStream (resp_Body resp); ResStream (PipeWriter 0)].
Proof.
  split; [reflexivity |].
  destruct (h2_dial_then_close closeOk writeOk (readAnswers 200 "200 OK") 0%nat
              (h2Through 200 "200 OK") "tcp" "example.com:443" _ eq_refl)
    as (resp & _ & _ & Hrel).
  exists resp. exact Hrel.
Defined.

End ClientExtra.

(** ** Further properties of the copy loop *)

Module CopyExtra.
Import Copy Observe.

Ltac simp := cbn -[Z.gtb Z.ltb Z.eqb bufLen] in *.

(** The script of one turn, case by case. *)
Ltac turn_cases nr er writes nw ew ws :=
  rewrite CopySpec.task_step; cbv zeta;
  destruct (Z.gtb_spec nr 0) as [Hpos | Hpos];
  [ destruct (Z.gtb_spec nr bufLen) as [Hbig | Hbig];
    [ | destruct writes as [| [nw ew] ws];
        [ | destruct ((nw <? 0) || (nr <? nw))%Z eqn:Hinv;
            [ | destruct ew as [ew |];
                [ | destruct (Z.eqb_spec nr nw) as [Heq | Hneq]; cbn [negb] ] ] ] ]
  | ].

(** X18. Every run of the copy task is a sequence of turns: each write is
    offered exactly the bytes of the read just before it, between 1 and
    32 KiB of them, a flusher is flushed right after every write, and the
    task reads again only after a read that delivered nothing or a write
    that took everything, both without error. *)
Theorem run_is_a_sequence_of_turns flusher reads :
  forall writes, turns flusher (fst (task flusher reads writes)).
Proof.
  induction reads as [| [nr er] reads IH]; intros writes.
  - rewrite CopySpec.task_nil. constructor.
  - assert (Hcont : forall ws,
              turns flusher (fst match er with
                                 | Some e => ([], Sent e)
                                 | None => task flusher reads ws
                                 end)) by (intros ws; destruct er; [constructor | apply IH]).
    assert (Hgo : forall ws,
              fst match er with
                  | Some e => ([], Sent e)
                  | None => task flusher reads ws
                  end <> [] -> er = None) by (intros ws; destruct er; [intros []; reflexivity | reflexivity]).
    turn_cases nr er writes nw ew ws; cbn [fst].
    + apply turns_read; [constructor | intros []; reflexivity].
    + apply turns_read; [constructor | intros []; reflexivity].
    + rewrite <- (app_nil_r (if flusher then _ else _)).
      apply turns_copy; [lia | constructor | intros []; reflexivity].
    + rewrite <- (app_nil_r (if flusher then _ else _)).
      apply turns_copy; [lia | constructor | intros []; reflexivity].
    + subst nw. apply (turns_copy flusher nr er (nr, None));
        [lia | apply Hcont | intros H; split; [reflexivity | exact (Hgo _ H)]].
    + rewrite <- (app_nil_r (if flusher then _ else _)).
      apply turns_copy; [lia | constructor | intros []; reflexivity].
    + apply turns_read; [apply Hcont |].
      intros H. split; [simp; lia | exact (Hgo _ H)].
Qed.

(** Membership in the events of one copying turn followed by [tl]. *)
Lemma in_turn (flusher : bool) (e rd wr : event) tl :
  e <> EvFlush ->
  In e ((rd :: wr :: (if flusher then [EvFlush] else [])) ++ tl) ->
  e = rd \/ e = wr \/ In e tl.
Proof.
  intros Hne H. destruct flusher; simp; intuition congruence.
Qed.

(** X19. An error of the writer ends the task with that very error, whatever
    byte count the write reported and whatever the read had answered. *)
Theorem write_error_ends_task flusher n nw e reads :
  forall writes,
    In (EvWrite n (nw, Some e)) (fst (task flusher reads writes)) ->
    snd (task flusher reads writes) = Sent e.
Proof.
  induction reads as [| [nr er] reads IH]; intros writes.
  - rewrite CopySpec.task_nil. intros [].
  - assert (Hcont : forall ws,
              In (EvWrite n (nw, Some e))
                 (fst match er with
                      | Some e' => ([], Sent e')
                      | None => task flusher reads ws
                      end) ->
              snd match er with
                  | Some e' => ([], Sent e')
                  | None => task flusher reads ws
                  end = Sent e)
      by (intros ws H; destruct er; [destruct H | now apply IH]).
    turn_cases nr er writes nw' ew ws; cbn [fst snd]; intros H.
    + simp. intuition discriminate.
    + simp. intuition discriminate.
    + rewrite <- (app_nil_r (_ :: _ :: _)) in H.
      apply in_turn in H; [| discriminate].
      destruct H as [H | [H | []]]; [discriminate |].
      injection H as _ _ <-. reflexivity.
    + rewrite <- (app_nil_r (_ :: _ :: _)) in H.
      apply in_turn in H; [| discriminate].
      destruct H as [H | [H | []]]; [discriminate |].
      injection H as _ _ ->. reflexivity.
    + apply in_turn in H; [| discriminate].
      destruct H as [H | [H | H]]; [discriminate | discriminate |].
      now apply Hcont.
    + rewrite <- (app_nil_r (_ :: _ :: _)) in H.
      apply in_turn in H; [| discriminate].
      destruct H as [H | [H | []]]; discriminate.
    + destruct H as [H | H]; [discriminate | now apply Hcont].
Qed.

(** X20. The task panics only when a read claims more bytes than the buffer
    holds. *)
Theorem panic_only_on_oversized_read flusher reads :
  forall writes,
    snd (task flusher reads writes) = Panicked ->
    Exists (fun r => bufLen < fst r) reads.
Proof.
  induction reads as [| [nr er] reads IH]; intros writes.
  - rewrite CopySpec.task_nil. discriminate.
  - assert (Hcont : forall ws,
              snd match er with
                  | Some e' => ([], Sent e')
                  | None => task flusher reads ws
                  end = Panicked ->
              Exists (fun r => bufLen < fst r) reads)
      by (intros ws H; destruct er; [discriminate | now apply IH in H]).
    turn_cases nr er writes nw ew ws; cbn [fst snd]; intros H;
      try discriminate.
    + left. simp. lia.
    + right. now apply Hcont in H.
    + right. now apply Hcont in H.
Qed.

(** X21. Once upstream reports an error or the end of the stream, the task
    ends and reports an error on the completion channel, provided no read
    claims more bytes than the buffer holds and the writer answers every
    write. *)
Theorem task_ends_on_read_error flusher reads :
  forall writes,
    Exists (fun r => snd r <> None) reads ->
    Forall (fun r => fst r <= bufLen) reads ->
    (List.length reads <= List.length writes)%nat ->
    exists e, snd (task flusher reads writes) = Sent e.
Proof.
  induction reads as [| [nr er] reads IH]; intros writes Hex Hfit Hlen.
  - inversion Hex.
  - inversion Hfit as [| ? ? Hnr Hfit']; subst. cbn [fst] in Hnr.
    assert (Hcont : forall ws,
              (List.length reads <= List.length ws)%nat ->
              exists e,
                snd match er with
                    | Some e' => ([], Sent e')
                    | None => task flusher reads ws
                    end = Sent e).
    { intros ws Hl. destruct er as [e' |]; [exists e'; reflexivity |].
      apply IH; [| exact Hfit' | exact Hl].
      inversion Hex as [? ? H | ? ? H]; subst; [simp; congruence | exact H]. }
    turn_cases nr er writes nw ew ws; cbn [fst snd];
      try (eexists; reflexivity).
    + lia.
    + simp. lia.
    + apply Hcont. simp. lia.
    + apply Hcont. simp. lia.
Qed.

(** X22. No byte is lost: in a run where every write took all it was offered
    and that ended with a report, as many bytes were written as were read,
    and the error reported is the one a read returned. *)
Theorem complete_writes_copy_everything flusher reads :
  forall writes e,
    Forall complete_write (fst (task flusher reads writes)) ->
    snd (task flusher reads writes) = Sent e ->
    bytes_written (fst (task flusher reads writes))
    = bytes_read (fst (task flusher reads writes))
    /\ exists nr, In (EvRead bufLen (nr, Some e)) (fst (task flusher reads writes)).
Proof.
  assert (Hcopy : forall (fl : bool) l r n tl,
            bytes_written (EvRead l r :: EvWrite n (n, None)
                             :: (if fl then [EvFlush] else []) ++ tl)
            = n + bytes_written tl
            /\ bytes_read (EvRead l (n, snd r) :: EvWrite n (n, None)
                             :: (if fl then [EvFlush] else []) ++ tl)
               = Z.max n 0 + bytes_read tl)
    by (intros [] l r n tl; split; reflexivity).
  assert (Hidle : forall l n er tl,
            bytes_written (EvRead l (n, er) :: tl) = bytes_written tl
            /\ bytes_read (EvRead l (n, er) :: tl) = Z.max n 0 + bytes_read tl)
    by (intros; split; reflexivity).
  induction reads as [| [nr er] reads IH]; intros writes e.
  - rewrite CopySpec.task_nil. discriminate.
  - assert (Hcont : forall ws rd,
              Forall complete_write
                (fst match er with
                     | Some e' => ([], Sent e')
                     | None => task flusher reads ws
                     end) ->
              snd match er with
                  | Some e' => ([], Sent e')
                  | None => task flusher reads ws
                  end = Sent e ->
              rd = EvRead bufLen (nr, er) ->
              bytes_written (fst match er with
                                 | Some e' => ([], Sent e')
                                 | None => task flusher reads ws
                                 end)
              = bytes_read (fst match er with
                                | Some e' => ([], Sent e')
                                | None => task flusher reads ws
                                end)
              /\ exists nr', rd = EvRead bufLen (nr', Some e)
                             \/ In (EvRead bufLen (nr', Some e))
                                   (fst match er with
                                        | Some e' => ([], Sent e')
                                        | None => task flusher reads ws
                                        end)).
    { intros ws rd Hall Hs ->. destruct er as [e' |].
      - injection Hs as ->. split; [reflexivity |]. exists nr. now left.
      - destruct (IH ws e Hall Hs) as [Hb [nr' Hin]]. split; [exact Hb |].
        exists nr'. now right. }
    turn_cases nr er writes nw ew ws; cbn [fst snd]; intros Hall Hs;
      try discriminate.
    + exfalso. inversion Hall as [| ? ? _ Hall']; subst.
      inversion Hall' as [| ? ? Hc _]; subst. destruct Hc as [-> Hc].
      apply orb_true_iff in Hinv. destruct Hinv as [Hv | Hv];
        apply Z.ltb_lt in Hv; lia.
    + exfalso. inversion Hall as [| ? ? _ Hall']; subst.
      inversion Hall' as [| ? ? Hc _]; subst. destruct Hc as [_ Hc]. discriminate.
    + subst nw.
      assert (Hall' : Forall complete_write
                        (fst match er with
                             | Some e' => ([], Sent e')
                             | None => task flusher reads ws
                             end)).
      { inversion Hall as [| ? ? _ H1]; subst. inversion H1 as [| ? ? _ H2]; subst.
        apply Forall_app in H2. exact (proj2 H2). }
      destruct (Hcont ws _ Hall' Hs eq_refl) as [Hb [nr' Hin]]. split.
      * destruct (Hcopy flusher bufLen (nr, er) nr
                    (fst match er with
                         | Some e' => ([], Sent e')
                         | None => task flusher reads ws
                         end)) as [E1 E2].
        cbn [snd] in E2. cbn [app]. rewrite E1, E2, Hb. lia.
      * exists nr'. destruct Hin as [Hin | Hin]; [left; exact Hin |].
        right. right. apply in_or_app. now right.
    + exfalso. inversion Hall as [| ? ? _ Hall']; subst.
      inversion Hall' as [| ? ? Hc _]; subst. destruct Hc as [Hc _]. congruence.
    + assert (Hall' : Forall complete_write
                        (fst match er with
                             | Some e' => ([], Sent e')
                             | None => task flusher reads writes
                             end))
        by (inversion Hall; assumption).
      destruct (Hcont writes _ Hall' Hs eq_refl) as [Hb [nr' Hin]]. split.
      * destruct (Hidle bufLen nr er
                    (fst match er with
                         | Some e' => ([], Sent e')
                         | None => task flusher reads writes
                         end)) as [E1 E2].
        rewrite E1, E2, Hb. lia.
      * exists nr'. destruct Hin as [Hin | Hin]; [left; exact Hin | right; exact Hin].
Qed.

Lemma write_error_ends_task_witness :
  In (EvWrite 100 (0, Some (ErrNew "stream closed")))
     (fst (task true [(10, None); (100, None); (5, None)]
                     [(10, None); (0, Some (ErrNew "stream closed"))]))
  /\ snd (task true [(10, None); (100, None); (5, None)]
                    [(10, None); (0, Some (ErrNew "stream closed"))])
     = Sent (ErrNew "stream closed").
Proof.
  split; [vm_compute; auto 10 |].
  apply (write_error_ends_task true 100 0 (ErrNew "stream closed")
           [(10, None); (100, None); (5, None)]
           [(10, None); (0, Some (ErrNew "stream closed"))]).
  vm_compute; auto 10.
Defined.

Lemma panic_only_on_oversized_read_witness :
  snd (task false [(10, None); (40000, None)] [(10, None); (40000, None)])
  = Panicked
  /\ Exists (fun r : ioResult => bufLen < fst r) [(10, None); (40000, None)].
Proof.
  split; [reflexivity |].
  apply (panic_only_on_oversized_read false [(10, None); (40000, None)]
           [(10, None); (40000, None)]).
  reflexivity.
Defined.

Lemma task_ends_on_read_error_witness :
  exists e,
    snd (task true [(10, None); (0, Some io_EOF)] [(10, None); (0, None)])
    = Sent e.
Proof.
  apply (task_ends_on_read_error true [(10, None); (0, Some io_EOF)]
           [(10, None); (0, None)]);
    [right; left; discriminate
    | repeat constructor; cbn; unfold bufLen; lia
    | cbn; lia].
Defined.

Lemma complete_writes_copy_everything_witness :
  Forall complete_write
    (fst (task true [(10, None); (0, None); (20, Some io_EOF)]
                    [(10, None); (20, None)]))
  /\ snd (task true [(10, None); (0, None); (20, Some io_EOF)]
                    [(10, None); (20, None)]) = Sent io_EOF
  /\ bytes_written
       (fst (task true [(10, None); (0, None); (20, Some io_EOF)]
                       [(10, None); (20, None)]))
     = bytes_read
         (fst (task true [(10, None); (0, None); (20, Some io_EOF)]
                         [(10, None); (20, None)])).
Proof.
  split; [vm_compute; repeat constructor |]. split; [reflexivity |].
  apply (complete_writes_copy_everything true
           [(10, None); (0, None); (20, Some io_EOF)] [(10, None); (20, None)]
           io_EOF); [vm_compute; repeat constructor | reflexivity].
Defined.

End CopyExtra.

(** ** The command-line tools: flag parsing and authorization *)

Module ToolsSpec.
Import Tools Observe.

Ltac simp := cbn -[String.eqb Z.eqb String.append HasPrefix Ascii.eqb] in *.

Lemma Split_not_nil s c : Split s c <> [].
Proof.
  destruct s as [| a s]; simp; [discriminate |].
  destruct (Ascii.eqb a c); [discriminate |].
  destruct (Split s c); discriminate.
Qed.

(** Joining the parts with the separator gives the string back. *)
Lemma concat_Split s c : String.concat (String c "") (Split s c) = s.
Proof.
  induction s as [| a s IH]; simp; [reflexivity |].
  destruct (Ascii.eqb_spec a c) as [-> | Hne].
  - simp. pose proof (Split_not_nil s c) as Hn.
    destruct (Split s c) as [| p ps]; [contradiction |].
    simp. now rewrite IH.
  - pose proof (Split_not_nil s c) as Hn.
    destruct (Split s c) as [| p ps]; [contradiction |].
    destruct ps as [| q qs]; simp; now rewrite <- IH.
Qed.

(** No part holds the separator. *)
Lemma Split_parts_free s c : Forall (fun p => Contains p c = false) (Split s c).
Proof.
  induction s as [| a s IH]; simp; [repeat constructor |].
  destruct (Ascii.eqb_spec a c) as [-> | Hne].
  - constructor; [reflexivity | exact IH].
  - pose proof (Split_not_nil s c) as Hn.
    destruct (Split s c) as [| p ps]; [contradiction |].
    inversion IH as [| ? ? Hp Hps]; subst. constructor; [| exact Hps].
    simp. rewrite Hp. now destruct (Ascii.eqb_spec a c).
Qed.

Lemma Split_app a b c :
  Contains a c = false -> Split (a ++ String c b) c = a :: Split b c.
Proof.
  induction a as [| x a IH]; cbn -[Ascii.eqb]; intros H.
  - now rewrite Ascii.eqb_refl.
  - apply orb_false_iff in H. destruct H as [Hx Ha].
    rewrite Hx, (IH Ha). reflexivity.
Qed.

Lemma Split_free a c : Contains a c = false -> Split a c = [a].
Proof.
  induction a as [| x a IH]; simp; intros H; [reflexivity |].
  apply orb_false_iff in H. destruct H as [Hx Ha].
  now rewrite Hx, (IH Ha).
Qed.

(** X23. What [parseForward] accepts: the input is [listen=remote] (the name
    is then the listen address) or [name=listen=remote], none of the parts
    holds an equals sign, and both addresses hold a colon, hence are not
    empty. *)
Theorem parseForward_accepts_only_wellformed s cfg :
  parseForward s = (cfg, None) ->
  ((s = listen cfg ++ "=" ++ remote cfg /\ name cfg = listen cfg)
   \/ s = name cfg ++ "=" ++ listen cfg ++ "=" ++ remote cfg)
  /\ Contains (name cfg) "="%char = false
  /\ Contains (listen cfg) "="%char = false
  /\ Contains (remote cfg) "="%char = false
  /\ Contains (listen cfg) ":"%char = true
  /\ Contains (remote cfg) ":"%char = true
  /\ listen cfg <> "" /\ remote cfg <> "".
Proof.
  unfold parseForward.
  pose proof (concat_Split s "="%char) as Hj.
  pose proof (Split_parts_free s "="%char) as Hf.
  destruct (Split s "="%char) as [| p0 [| p1 [| p2 [| p3 ps]]]];
    try discriminate; simp;
    repeat match goal with
           | |- context [if ?b then _ else _] => destruct b eqn:?
           end; try discriminate;
    intros H; injection H as <-; simp;
    repeat match goal with
           | H : Forall _ (_ :: _) |- _ => inversion H; subst; clear H
           | H : negb _ = false |- _ => apply negb_false_iff in H
           | H : (_ =? _) = false |- _ => apply String.eqb_neq in H
           end;
    repeat split; auto.
Qed.

(** X24. What [parseForward] accepts, the other way round: two or three parts
    without an equals sign, the addresses with a colon, are parsed into
    the configuration they spell. *)
Theorem parseForward_parses_wellformed n l r :
  Contains n "="%char = false ->
  Contains l "="%char = false ->
  Contains r "="%char = false ->
  Contains l ":"%char = true ->
  Contains r ":"%char = true ->
  parseForward (l ++ "=" ++ r) = (mkForwardConfig l l r, None)
  /\ parseForward (n ++ "=" ++ l ++ "=" ++ r) = (mkForwardConfig n l r, None).
Proof.
  intros Hn Hl Hr Hcl Hcr.
  assert (Hne : forall x, Contains x ":"%char = true -> (x =? "") = false)
    by (intros [| ? ?]; [discriminate | reflexivity]).
  unfold parseForward. split.
  - change (l ++ "=" ++ r) with (l ++ String "="%char r).
    rewrite (Split_app l r _ Hl), (Split_free r _ Hr). simp.
    now rewrite (Hne l Hcl), (Hne r Hcr), Hcl, Hcr.
  - change (n ++ "=" ++ l ++ "=" ++ r)
      with (n ++ String "="%char (l ++ String "="%char r)).
    rewrite (Split_app n _ _ Hn), (Split_app l r _ Hl), (Split_free r _ Hr). simp.
    now rewrite (Hne l Hcl), (Hne r Hcr), Hcl, Hcr.
Qed.

Lemma HasPrefix_app pre t : HasPrefix (pre ++ t) pre = true.
Proof.
  unfold HasPrefix. induction pre as [| a pre IH]; cbn -[Ascii.eqb].
  - now destruct t.
  - destruct (ascii_dec a a) as [_ | Hn]; [exact IH | contradiction].
Qed.

Lemma slice_from_app pre t : slice_from (String.length pre) (pre ++ t) = t.
Proof. induction pre as [| a pre IH]; cbn; [reflexivity | exact IH]. Qed.

(** A string with the prefix is the prefix followed by what
    [TrimPrefix] leaves. *)
Lemma HasPrefix_TrimPrefix s pre :
  HasPrefix s pre = true -> s = pre ++ TrimPrefix s pre.
Proof.
  unfold TrimPrefix. intros H. rewrite H. revert s H. unfold HasPrefix.
  induction pre as [| a pre IH]; intros s H.
  - reflexivity.
  - destruct s as [| b s]; cbn in *; [discriminate |].
    destruct (ascii_dec a b) as [-> | _]; [| discriminate].
    f_equal. now apply IH.
Qed.

(** X25. [extractBearerToken] returns the token [tok] exactly when the header
    it looks at is [Bearer] followed by [tok]; that header is
    [Proxy-Authorization] when it is not empty and [Authorization]
    otherwise, so a [Proxy-Authorization] value that is no bearer token is
    refused whatever [Authorization] holds. *)
Theorem extractBearerToken_token req tok :
  let pa := Header_Get (ReqHeader req) "Proxy-Authorization" in
  let au := Header_Get (ReqHeader req) "Authorization" in
  (extractBearerToken req = (tok, None)
   <-> (if pa =? "" then au else pa) = "Bearer " ++ tok)
  /\ (pa <> "" -> HasPrefix pa "Bearer " = false ->
      extractBearerToken req = ("", Some (ErrNew "not a bearer token"))).
Proof.
  intros pa au. unfold extractBearerToken. fold pa au.
  set (auth := if pa =? "" then au else pa).
  split; [split |].
  - destruct (auth =? ""); [discriminate |].
    destruct (HasPrefix auth "Bearer ") eqn:Hp; simp; [| discriminate].
    intros H. injection H as <-. now apply HasPrefix_TrimPrefix.
  - intros E. rewrite E.
    change ("Bearer " ++ tok =? "") with false. cbv iota.
    rewrite HasPrefix_app. simp. unfold TrimPrefix.
    now rewrite HasPrefix_app, slice_from_app.
  - intros Hne Hp. subst auth.
    destruct (String.eqb_spec pa "") as [| Hpa]; [contradiction |].
    apply String.eqb_neq in Hpa. rewrite Hpa, Hp. reflexivity.
Qed.

(** A request the callback of the configuration refuses is never dialed
    for, by either handshake or by the unified handler. *)
Lemma refused_request_not_dialed netDial cfg f w req :
  OnTunnel cfg = Some f ->
  f req <> None ->
  Server.dials (Server.serve_unified netDial (Some cfg) w req) = [].
Proof.
  intros Hf Hr.
  assert (H : forall k, Server.dials (Server.serve netDial k (Some cfg) w req) = []).
  { intros k.
    destruct k; unfold Server.serve, Server.trace, Server.h1_ServeHTTP,
      Server.h2_ServeHTTP, Server.checkTunnel, when, Server.NewH1Handler,
      Server.NewH2Handler;
      cbn -[String.eqb Z.eqb String.append Server.established];
      rewrite Hf; cbn -[String.eqb Z.eqb String.append Server.established];
      destruct (f req) as [e |]; try contradiction;
      repeat match goal with
             | |- context [if ?b then _ else _] =>
                 destruct b; cbn -[String.eqb Z.eqb String.append Server.established]
             end; reflexivity. }
  destruct (ServerSpec.serve_unified_cases netDial (Some cfg) w req) as [E | [k E]];
    rewrite E; [reflexivity | apply H].
Qed.

(** X26. The Tailscale server dials upstream only for an authorized request.
    With an OIDC provider: the request carries a bearer token (in
    [Proxy-Authorization], else [Authorization]) that the provider
    verified, whatever the flag [-auth] says.  Without one and with
    [-auth]: the [Proxy-Authorization] header is exactly [Bearer] followed
    by the configured token. *)
Theorem ts_server_dials_only_authorized netDial oidc enableAuth authToken
  dl lg w req n a r :
  In (Server.EvDial n a r)
     (Server.serve_unified netDial
        (Some (mkServerConfig (Some (tsOnTunnel oidc enableAuth authToken)) dl lg))
        w req) ->
  match oidc with
  | Some p =>
      exists token,
        extractBearerToken req = (token, None)
        /\ NewValidator p = None
        /\ VerifyAndDecode p token = None
  | None =>
      enableAuth = true ->
      Header_Get (ReqHeader req) "Proxy-Authorization" = "Bearer " ++ authToken
  end.
Proof.
  intros Hin.
  assert (Hpass : tsOnTunnel oidc enableAuth authToken req = None).
  { destruct (tsOnTunnel oidc enableAuth authToken req) as [e |] eqn:Hr;
      [| reflexivity].
    exfalso.
    pose proof (refused_request_not_dialed netDial
                  (mkServerConfig (Some (tsOnTunnel oidc enableAuth authToken)) dl lg)
                  _ w req eq_refl) as Hno.
    rewrite Hr in Hno. specialize (Hno ltac:(discriminate)).
    unfold Server.dials in Hno.
    assert (Hd : In (n, a) (Server.dials
              (Server.serve_unified netDial
                 (Some (mkServerConfig (Some (tsOnTunnel oidc enableAuth authToken)) dl lg))
                 w req))).
    { unfold Server.dials. apply in_flat_map. eexists. split; [exact Hin |].
      now left. }
    unfold Server.dials in Hd. rewrite Hno in Hd. exact Hd. }
  unfold tsOnTunnel in Hpass. destruct oidc as [p |].
  - destruct (extractBearerToken req) as [token [e |]]; [discriminate |].
    exists token. destruct (NewValidator p); [discriminate |].
    destruct (VerifyAndDecode p token); [discriminate |]. auto.
  - intros ->. simp.
    destruct (String.eqb_spec (Header_Get (ReqHeader req) "Proxy-Authorization")
                ("Bearer " ++ authToken)); [assumption | discriminate].
Qed.

Import Examples.

Lemma parseForward_accepts_only_wellformed_witness :
  parseForward "web=localhost:8080=example.com:80"
  = (mkForwardConfig "web" "localhost:8080" "example.com:80", None)
  /\ Contains "localhost:8080" ":"%char = true.
Proof.
  split; [reflexivity |].
  apply (parseForward_accepts_only_wellformed "web=localhost:8080=example.com:80"
           (mkForwardConfig "web" "localhost:8080" "example.com:80")).
  reflexivity.
Defined.

Lemma parseForward_parses_wellformed_witness :
  Contains "web" "="%char = false
  /\ Contains ":8080" "="%char = false
  /\ Contains "example.com:80" "="%char = false
  /\ Contains ":8080" ":"%char = true
  /\ Contains "example.com:80" ":"%char = true
  /\ parseForward (":8080" ++ "=" ++ "example.com:80")
     = (mkForwardConfig ":8080" ":8080" "example.com:80", None).
Proof.
  repeat (split; [reflexivity |]).
  apply (parseForward_parses_wellformed "web" ":8080" "example.com:80");
    reflexivity.
Defined.

Lemma ts_server_dials_only_authorized_witness :
  In (Server.EvDial "tcp" "example.com:443" (inl 7%nat))
     (Server.serve_unified noDial
        (Some (mkServerConfig (Some (tsOnTunnel None true "secret"))
                 (Some okDial) None))
        plainWriter
        (mkRequest "CONNECT" "" "HTTP/1.1" 1 1
           [("Proxy-Authorization", ["Bearer secret"])] None 0
           "example.com:443" "example.com:443"))
  /\ (true = true ->
      Header_Get [("Proxy-Authorization", ["Bearer secret"])] "Proxy-Authorization"
      = "Bearer " ++ "secret").
Proof.
  split; [vm_compute; auto |].
  apply (ts_server_dials_only_authorized noDial None true "secret" (Some okDial)
           None plainWriter
           (mkRequest "CONNECT" "" "HTTP/1.1" 1 1
              [("Proxy-Authorization", ["Bearer secret"])] None 0
              "example.com:443" "example.com:443")
           "tcp" "example.com:443" (inl 7%nat)).
  vm_compute; auto.
Defined.

End ToolsSpec.

(** ** The command-line tools: local proxy and port forwarder *)

Module ForwardersSpec.
Import Forwarders.

Ltac simp := cbn -[String.eqb Z.eqb String.append Server.established] in *.

Ltac branch :=
  match goal with
  | |- context [match ?x with _ => _ end] =>
      lazymatch x with
      | context [match _ with _ => _ end] => fail
      | _ => destruct x eqn:?; simp
      end
  | |- context [if ?x then _ else _] => destruct x eqn:?; simp
  end.

Ltac unfold_tools :=
  unfold ServeHTTP, handleConnect, handleConnection, deferred, http_Error,
    Printf, when, call, run.

Ltac cases_in H :=
  repeat (destruct H as [H | H]; try discriminate); try contradiction.

Section Facts.

Variable conn_Write : sock -> string -> option error.

(** X27. The local proxy closes what it holds: in every run the connections
    it got (the one dialed through the remote proxy, then the hijacked
    client connection) are closed, each once, in the reverse order. *)
Theorem local_proxy_closes_in_reverse h w req remoteAddr :
  closed (fst (run (ServeHTTP conn_Write h w req remoteAddr)))
  = rev (acquired (fst (run (ServeHTTP conn_Write h w req remoteAddr)))).
Proof.
  unfold_tools; simp; repeat branch; reflexivity.
Qed.

(** X28. The local proxy starts copying only on an established tunnel: the
    target was dialed through the remote proxy, the client connection was
    hijacked and the line [200 Connection Established] was written on it
    without error; and nothing was answered through the HTTP layer. *)
Theorem local_proxy_copies_established_tunnel h w req remoteAddr c p r :
  In (EvCopy c p r) (fst (run (ServeHTTP conn_Write h w req remoteAddr))) ->
  dialer h "tcp" (Host req) = inl p
  /\ In (EvWrite c Server.established None)
        (fst (run (ServeHTTP conn_Write h w req remoteAddr)))
  /\ acquired (fst (run (ServeHTTP conn_Write h w req remoteAddr))) = [p; c]
  /\ statuses (fst (run (ServeHTTP conn_Write h w req remoteAddr))) = [].
Proof.
  unfold_tools; simp; repeat branch; intros H; cases_in H;
    injection H as <- <- _; repeat split; simp; auto 10.
Qed.

(** X29. The answers of the local proxy: at most one status, among 405, 400,
    502 and 500; and once [Hijack] was called none at all, also when the
    hijack or the write of the status line failed. *)
Theorem local_proxy_answers h w req remoteAddr :
  (List.length (statuses (fst (run (ServeHTTP conn_Write h w req remoteAddr)))) <= 1)%nat
  /\ incl (statuses (fst (run (ServeHTTP conn_Write h w req remoteAddr))))
          [405; 400; 502; 500]
  /\ forall res,
       In (EvHijack res) (fst (run (ServeHTTP conn_Write h w req remoteAddr))) ->
       statuses (fst (run (ServeHTTP conn_Write h w req remoteAddr))) = [].
Proof.
  unfold_tools; simp; repeat branch;
    (split; [simp; lia |]; split; [intros x Hx; simp; intuition |]);
    intros res H; cases_in H; reflexivity.
Qed.

(** X30. The port forwarder dials the remote address once, on network [tcp],
    and closes what it holds: the connection through the proxy when the
    dial succeeded, and then, in every run, the local connection. *)
Theorem forwarder_closes_connections verbose copyResult localConn peer remote
  name dialer :
  let t := fst (run (handleConnection verbose copyResult localConn peer remote
                       name dialer)) in
  closed t = rev (localConn :: acquired t)
  /\ flat_map (fun e => match e with
                        | EvDialContext n a r => [(n, a, r)]
                        | _ => []
                        end) t
     = [("tcp", remote, dialer "tcp" remote)].
Proof.
  unfold_tools; simp; repeat branch; split; reflexivity.
Qed.

End Facts.
Import Examples.

Lemma local_proxy_copies_established_tunnel_witness :
  In (EvCopy 3%nat 7%nat None)
     (fst (run (ServeHTTP (fun _ _ => None) (mkProxyHandler okDial false)
                  hijackable (connectReq 1) "127.0.0.1:5000")))
  /\ acquired (fst (run (ServeHTTP (fun _ _ => None) (mkProxyHandler okDial false)
                          hijackable (connectReq 1) "127.0.0.1:5000")))
     = [7%nat; 3%nat]
  /\ statuses (fst (run (ServeHTTP (fun _ _ => None) (mkProxyHandler okDial false)
                          hijackable (connectReq 1) "127.0.0.1:5000"))) = [].
Proof.
  split; [vm_compute; auto 10 |].
  apply (local_proxy_copies_established_tunnel (fun _ _ => None)
           (mkProxyHandler okDial false) hijackable (connectReq 1)
           "127.0.0.1:5000" 3%nat 7%nat None).
  vm_compute; auto 10.
Defined.

End ForwardersSpec.
